(** * The order ledger and the monthly report of the clothing-store API

    A shallow embedding of the order operations of [main.py]
    ([create_order], [list_orders], [mark_paid], [monthly_report]) together
    with the parts of the Python runtime and of the document store they
    rest on: binary64 arithmetic with [sum] and [round], naive UTC
    datetimes, BSON object identifiers, exceptions and the order
    collection. *)

From Stdlib Require Import ZArith List String Ascii Bool Lia.
From Stdlib Require Import Permutation Sorted.
From Stdlib Require Import Floats.SpecFloat.
From Stdlib Require Strings.Byte.
Import ListNotations.

Local Open Scope string_scope.
Local Open Scope list_scope.
Local Open Scope Z_scope.

(* ================================================================= *)
(** ** Exceptions and results *)

(** The exceptions an order operation can meet.  All of them derive from
    Python's [Exception], so a bare [except Exception] catches each one. *)
Inductive exn : Type :=
| HTTPException (status_code : Z) (detail : string)
| InvalidId
| OverflowError
| ValueError
| TypeError.

Inductive outcome (A : Type) : Type :=
| Ret (a : A)
| Raise (e : exn).

Arguments Ret {A} a.
Arguments Raise {A} e.

Definition obind {A B : Type} (c : outcome A) (k : A -> outcome B) : outcome B :=
  match c with
  | Ret a => k a
  | Raise e => Raise e
  end.

Notation "'let?' x ':=' c 'in' k" := (obind c (fun x => k))
  (at level 10, x name, c at level 100, k at level 200).

(** Whether a returned value can be rendered as JSON.  The framework's
    encoder refuses a float that is infinite or not a number, and the
    request then ends as an internal server error. *)
Class Renders (A : Type) : Type := renders : A -> bool.

(** What the web framework answers: 200 for a returned value it can
    render; an [HTTPException] carries its own status; any other escaping
    exception, the encoder's included, is an internal server error. *)
Definition http_status {A : Type} `{Renders A} (r : outcome A) : Z :=
  match r with
  | Ret a => if renders a then 200 else 500
  | Raise (HTTPException c _) => c
  | Raise _ => 500
  end.

(* ================================================================= *)
(** ** Python floats: IEEE 754 binary64 *)

Module PyFloat.

Definition prec : Z := 53.
Definition emax : Z := 1024.

Definition float : Type := spec_float.

Definition fadd : float -> float -> float := SFadd prec emax.
Definition fmul : float -> float -> float := SFmul prec emax.
Definition feqb : float -> float -> bool := SFeqb.

Definition fsub : float -> float -> float := SFsub prec emax.
Definition fabs : float -> float := SFabs.
Definition fleb : float -> float -> bool := SFleb.

Definition zero : float := S754_zero false.

Definition isfinite (x : float) : bool :=
  match x with
  | S754_zero _ | S754_finite _ _ _ => true
  | _ => false
  end.

(** The double nearest to the rational [p / q] with sign [s], ties to
    even: what a correctly rounded decimal-to-binary conversion
    ([strtod], the JSON reader) returns. *)
Definition nearest (s : bool) (p q : positive) : float :=
  let '(mz, ez, lz) := SFdiv_core_binary prec emax (Zpos p) 0 (Zpos q) 0 in
  binary_round_aux prec emax s mz ez lz.

Definition pow10 (k : N) : positive :=
  match k with
  | N0 => 1%positive
  | Npos p => Pos.pow 10 p
  end.

(** The double written [n / 10^k] as a decimal literal, e.g.
    [decimal 1999 2] for [19.99]. *)
Definition decimal (n : Z) (k : N) : float :=
  match n with
  | Z0 => zero
  | Zpos p => nearest false p (pow10 k)
  | Zneg p => nearest true p (pow10 k)
  end.

(** [PyLong_AsDouble]: the nearest double, [OverflowError] when the
    integer is too large to convert. *)
Definition of_int (n : Z) : outcome float :=
  match binary_normalize prec emax n 0 false with
  | S754_infinity _ => Raise OverflowError
  | x => Ret x
  end.

(** Nearest integer to [a / b] for [0 <= a], [0 < b], ties to even. *)
Definition div_half_even (a b : Z) : Z :=
  let q := a / b in
  match (2 * (a mod b)) ?= b with
  | Lt => q
  | Gt => q + 1
  | Eq => if Z.even q then q else q + 1
  end.

Definition NDIGITS_MAX : N := 323.

(** [float.__round__(x, ndigits)] for [0 <= ndigits]: the exact value of
    [x] is rounded to [ndigits] decimals, ties to even, and the decimal
    result is converted back to the nearest double.  Non-finite values
    and zeros round to themselves; the sign is kept. *)
Definition round (x : float) (ndigits : N) : float :=
  match x with
  | S754_finite s m e =>
      if (NDIGITS_MAX <? ndigits)%N then x
      else if 0 <=? e then x
      else
        let scale := pow10 ndigits in
        match div_half_even (Zpos m * Zpos scale) (2 ^ (- e)) with
        | Zpos n => nearest s n scale
        | _ => S754_zero s
        end
  | _ => x
  end.

End PyFloat.

(* ================================================================= *)
(** ** Python numbers: [int] and [float] *)

Module PyNum.
Import PyFloat.

Inductive number : Type :=
| PInt (n : Z)
| PFloat (x : float).

Definition to_double (v : number) : outcome float :=
  match v with
  | PInt n => of_int n
  | PFloat x => Ret x
  end.

(** [a + b]: exact on two ints, otherwise both sides as doubles. *)
Definition add (a b : number) : outcome number :=
  match a, b with
  | PInt x, PInt y => Ret (PInt (x + y))
  | _, _ =>
      let? x := to_double a in
      let? y := to_double b in
      Ret (PFloat (fadd x y))
  end.

(** [a * b], same coercion rule. *)
Definition mul (a b : number) : outcome number :=
  match a, b with
  | PInt x, PInt y => Ret (PInt (x * y))
  | _, _ =>
      let? x := to_double a in
      let? y := to_double b in
      Ret (PFloat (fmul x y))
  end.

(** The builtin [sum] comes in two versions.  Before CPython 3.12 it adds
    the items one after the other; from 3.12 on it adds a run of floats
    with a compensation term (Neumaier), which can change the last place
    of the result once three or more floats are added. *)
Inductive interpreter : Type :=
| Before312
| From312.

(** The range of a C [long] (64 bits). *)
Definition LONG_MIN : Z := - 2 ^ 63.
Definition LONG_MAX : Z := 2 ^ 63 - 1.

Definition fits_long (n : Z) : bool := (LONG_MIN <=? n) && (n <=? LONG_MAX).

(** The general loop, [result = result + item], from left to right. *)
Fixpoint sum_from (acc : number) (xs : list number) : outcome number :=
  match xs with
  | [] => Ret acc
  | x :: rest => let? acc' := add acc x in sum_from acc' rest
  end.

(** [if (c && isfinite(c)) f_result += c] *)
Definition settle (f c : float) : float :=
  if negb (feqb c zero) && isfinite c then fadd f c else f.

(** The float loop of 3.12: running sum [f], compensation [c].  An int
    that fits a C [long] is added as a double; any other int ends the
    loop, and the general loop takes over. *)
Fixpoint sum_floats_from (f c : float) (xs : list number) : outcome number :=
  match xs with
  | [] => Ret (PFloat (settle f c))
  | PFloat x :: rest =>
      let t := fadd f x in
      let c' :=
        if fleb (fabs x) (fabs f) then fadd c (fadd (fsub f t) x)
        else fadd c (fadd (fsub x t) f) in
      sum_floats_from t c' rest
  | PInt v :: rest =>
      if fits_long v then
        let? d := of_int v in sum_floats_from (fadd f d) c rest
      else
        let? acc := add (PFloat (settle f c)) (PInt v) in sum_from acc rest
  end.

(** Where the int loop of 3.12 hands over: to the float loop when the
    sum has become a float, to the general loop otherwise. *)
Definition sum_after (acc : number) (xs : list number) : outcome number :=
  match acc with
  | PFloat f => sum_floats_from f zero xs
  | PInt _ => sum_from acc xs
  end.

(** The int loop of 3.12: ints are added in a C [long] as long as they
    fit; the first item that is no such int is added by [+] and ends the
    loop. *)
Fixpoint sum_ints_from (i : Z) (xs : list number) : outcome number :=
  match xs with
  | [] => Ret (PInt i)
  | PInt b :: rest =>
      if fits_long b && fits_long (i + b) then sum_ints_from (i + b) rest
      else let? acc := add (PInt i) (PInt b) in sum_after acc rest
  | PFloat x :: rest =>
      let? acc := add (PInt i) (PFloat x) in sum_after acc rest
  end.

(** The builtin [sum], started from the int [0]. *)
Definition sum (py : interpreter) (xs : list number) : outcome number :=
  match py with
  | Before312 => sum_from (PInt 0) xs
  | From312 => sum_ints_from 0 xs
  end.

(** The builtin [round(v, ndigits)] with [0 <= ndigits]: an int is
    returned as it is, a float goes through [float.__round__]. *)
Definition round (v : number) (ndigits : N) : number :=
  match v with
  | PInt n => PInt n
  | PFloat x => PFloat (PyFloat.round x ndigits)
  end.

(** Exact comparison of an int with a double, as Python's [==] does. *)
Definition int_float_eqb (n : Z) (x : float) : bool :=
  match x with
  | S754_zero _ => n =? 0
  | S754_finite s m e =>
      let v := if s then Zneg m else Zpos m in
      if 0 <=? e then n =? v * 2 ^ e else n * 2 ^ (- e) =? v
  | _ => false
  end.

(** Python's [==] on numbers. *)
Definition eqb (a b : number) : bool :=
  match a, b with
  | PInt x, PInt y => x =? y
  | PFloat x, PFloat y => feqb x y
  | PInt n, PFloat x | PFloat x, PInt n => int_float_eqb n x
  end.

End PyNum.

(* ================================================================= *)
(** ** Naive UTC datetimes *)

Module Datetime.

Record datetime : Type := mk_datetime {
  year : Z;
  month : Z;
  day : Z;
  hour : Z;
  minute : Z;
  second : Z;
  microsecond : Z
}.

Definition MINYEAR : Z := 1.
Definition MAXYEAR : Z := 9999.

Definition is_leap (y : Z) : bool :=
  (y mod 4 =? 0) && (negb (y mod 100 =? 0) || (y mod 400 =? 0)).

Definition DAYS_IN_MONTH : list Z :=
  [31; 28; 31; 30; 31; 30; 31; 31; 30; 31; 30; 31].

Definition DAYS_BEFORE_MONTH : list Z :=
  [0; 31; 59; 90; 120; 151; 181; 212; 243; 273; 304; 334].

Definition days_in_month (y m : Z) : Z :=
  if (m =? 2) && is_leap y then 29
  else nth (Z.to_nat (m - 1)) DAYS_IN_MONTH 0.

Definition days_before_year (y : Z) : Z :=
  let p := y - 1 in
  p * 365 + p / 4 - p / 100 + p / 400.

Definition days_before_month (y m : Z) : Z :=
  nth (Z.to_nat (m - 1)) DAYS_BEFORE_MONTH 0
  + (if (2 <? m) && is_leap y then 1 else 0).

(** Proleptic Gregorian ordinal, 0001-01-01 being day 1. *)
Definition ymd2ord (y m d : Z) : Z :=
  days_before_year y + days_before_month y m + d.

Definition check_date_fields (y m d : Z) : bool :=
  (MINYEAR <=? y) && (y <=? MAXYEAR)
  && (1 <=? m) && (m <=? 12)
  && (1 <=? d) && (d <=? days_in_month y m).

(** The arguments of the constructor are converted to C [int]s. *)
Definition fits_c_int (v : Z) : bool := (- 2 ^ 31 <=? v) && (v <? 2 ^ 31).

(** The constructor call [datetime(y, m, d)]: midnight of that day;
    [OverflowError] when an argument does not fit a C [int], [ValueError]
    when a field is out of range. *)
Definition dt (y m d : Z) : outcome datetime :=
  if fits_c_int y && fits_c_int m && fits_c_int d then
    if check_date_fields y m d then Ret (mk_datetime y m d 0 0 0 0)
    else Raise ValueError
  else Raise OverflowError.

Definition EPOCH_ORD : Z := ymd2ord 1970 1 1.

(** [calendar.timegm]: seconds since 1970-01-01T00:00:00. *)
Definition timegm (t : datetime) : Z :=
  let days := ymd2ord (year t) (month t) 1 - EPOCH_ORD + day t - 1 in
  let hours := days * 24 + hour t in
  let minutes := hours * 60 + minute t in
  minutes * 60 + second t.

(** The BSON encoding of a date: whole milliseconds since the epoch. *)
Definition to_millis (t : datetime) : Z :=
  timegm t * 1000 + microsecond t / 1000.

(** A datetime as it is read back from the store: the microseconds
    below the millisecond are gone. *)
Definition bson (t : datetime) : datetime :=
  mk_datetime (year t) (month t) (day t) (hour t) (minute t) (second t)
    (microsecond t / 1000 * 1000).

End Datetime.

(* ================================================================= *)
(** ** BSON object identifiers *)

Module ObjectId.

(** An identifier is the byte string it was built from: twelve bytes
    for every identifier the driver generates. *)
Definition t : Type := list Byte.byte.

Definition hexval (c : ascii) : option N :=
  let n := N_of_ascii c in
  if (48 <=? n)%N && (n <=? 57)%N then Some (n - 48)%N
  else if (97 <=? n)%N && (n <=? 102)%N then Some (n - 87)%N
  else if (65 <=? n)%N && (n <=? 70)%N then Some (n - 55)%N
  else None.

Definition isspace (c : ascii) : bool :=
  let n := N_of_ascii c in
  (n =? 32)%N || ((9 <=? n)%N && (n <=? 13)%N).

(** [bytes.fromhex]: two hexadecimal digits per byte, ASCII whitespace
    allowed between bytes; [None] stands for its [ValueError]. *)
Fixpoint fromhex (s : string) : option (list Byte.byte) :=
  match s with
  | EmptyString => Some []
  | String c r =>
      if isspace c then fromhex r
      else
        match r with
        | EmptyString => None
        | String d r' =>
            match hexval c, hexval d, fromhex r' with
            | Some hi, Some lo, Some bs =>
                match Byte.of_N (16 * hi + lo) with
                | Some b => Some (b :: bs)
                | None => None
                end
            | _, _, _ => None
            end
        end
  end.

(** [ObjectId(oid)] on a string: it must be 24 characters long and
    accepted by [bytes.fromhex]; anything else raises [InvalidId]. *)
Definition of_str (oid : string) : outcome t :=
  if (String.length oid =? 24)%nat then
    match fromhex oid with
    | Some bs => Ret bs
    | None => Raise InvalidId
    end
  else Raise InvalidId.

Definition hexdigit (n : N) : ascii :=
  if (n <? 10)%N then ascii_of_N (48 + n) else ascii_of_N (87 + n).

(** [str(oid)]: the lowercase hexadecimal rendering. *)
Fixpoint str (i : t) : string :=
  match i with
  | [] => EmptyString
  | b :: r =>
      let n := Byte.to_N b in
      String (hexdigit (n / 16)) (String (hexdigit (n mod 16)) (str r))
  end.

Definition eqb (a b : t) : bool :=
  if list_eq_dec Byte.byte_eq_dec a b then true else false.

End ObjectId.

(* ================================================================= *)
(** ** Request models and order documents *)

Import PyFloat PyNum Datetime.

(** The request models of [main.py].  Their fields carry a type and
    nothing else: no bound on [price], none on [quantity], none on the
    length of [items]. *)
Module Req.

Record OrderItemIn : Type := mk_item {
  product_id : string;
  title : string;
  price : float;
  quantity : Z
}.

Record CreateOrderRequest : Type := mk_request {
  customer_name : string;
  customer_email : string;
  shipping_address : string;
  items : list OrderItemIn
}.

Record MarkPaidRequest : Type := mk_mark_paid {
  order_id : string
}.

End Req.

(** An order document.  [K] is the type of its key: [unit] for the dict
    built by [create_order] before it is inserted, [ObjectId.t] for a
    stored document (key ["_id"]), [string] for a document handed to the
    client (key ["id"]). *)
Record order (K : Type) : Type := mk_order {
  key : K;
  customer_name : string;
  customer_email : string;
  shipping_address : string;
  items : list Req.OrderItemIn;
  subtotal : number;
  status : string;
  payment_method : string;
  created_at : datetime;
  updated_at : datetime;
  paid_at : option datetime
}.

Arguments mk_order {K}.
Arguments key {K}.
Arguments customer_name {K}.
Arguments customer_email {K}.
Arguments shipping_address {K}.
Arguments items {K}.
Arguments subtotal {K}.
Arguments status {K}.
Arguments payment_method {K}.
Arguments created_at {K}.
Arguments updated_at {K}.
Arguments paid_at {K}.

Definition order_doc : Type := order ObjectId.t.
Definition order_dict : Type := order string.

Definition with_key {K K' : Type} (k : K') (d : order K) : order K' :=
  mk_order k (customer_name d) (customer_email d) (shipping_address d)
    (items d) (subtotal d) (status d) (payment_method d)
    (created_at d) (updated_at d) (paid_at d).

(** What the store keeps of a document: dates at millisecond precision. *)
Definition bson_order {K : Type} (d : order K) : order K :=
  mk_order (key d) (customer_name d) (customer_email d) (shipping_address d)
    (items d) (subtotal d) (status d) (payment_method d)
    (bson (created_at d)) (bson (updated_at d)) (option_map bson (paid_at d)).

(** [to_dict]: the store's ["_id"] becomes the plain string ["id"]. *)
Definition to_dict (doc : order_doc) : order_dict :=
  with_key (ObjectId.str (key doc)) doc.

(** The update document of [mark_paid]:
    [{"$set": {"status": "paid", "paid_at": ..., "updated_at": ...}}]. *)
Definition set_paid (paid upd : datetime) (d : order_doc) : order_doc :=
  mk_order (key d) (customer_name d) (customer_email d) (shipping_address d)
    (items d) (subtotal d) "paid" (payment_method d)
    (created_at d) (bson upd) (Some (bson paid)).

(** One row of the [$group] stage. *)
Record group_row : Type := mk_row {
  row_id : string;
  row_count : Z;
  row_revenue : number
}.

Record status_summary : Type := mk_summary {
  orders : Z;
  revenue : number
}.

Record report : Type := mk_report {
  report_year : Z;
  report_month : Z;
  summary : list (string * status_summary);
  total_orders : Z;
  total_revenue : number
}.

(** Lookup in the [summary] dict. *)
Fixpoint summary_get (s : string) (d : list (string * status_summary))
  : option status_summary :=
  match d with
  | [] => None
  | (k, v) :: r => if String.eqb k s then Some v else summary_get s r
  end.

(* ================================================================= *)
(** ** The world an operation runs in *)

(** [db] is the module-level database handle, [None] when the store is
    not configured; of the database only the ["order"] collection matters
    here, kept in insertion order.  The two counters say how often the
    clock has been read and how many identifiers the driver has made. *)
Record world : Type := mk_world {
  db : option (list order_doc);
  clock_reads : nat;
  oids_made : nat
}.

Definition M (A : Type) : Type := world -> outcome A * world.

Definition ret {A : Type} (a : A) : M A := fun w => (Ret a, w).

Definition raise {A : Type} (e : exn) : M A := fun w => (Raise e, w).

Definition bind {A B : Type} (c : M A) (k : A -> M B) : M B :=
  fun w =>
    match c w with
    | (Ret a, w') => k a w'
    | (Raise e, w') => (Raise e, w')
    end.

Definition lift {A : Type} (r : outcome A) : M A := fun w => (r, w).

(** [try: body except Exception: handler].  Every exception of [exn] is
    an [Exception], [HTTPException] included. *)
Definition try_except {A : Type} (body handler : M A) : M A :=
  fun w =>
    match body w with
    | (Ret a, w') => (Ret a, w')
    | (Raise _, w') => handler w'
    end.

Declare Scope py_scope.
Delimit Scope py_scope with py.

Notation "x <- c ;; k" := (bind c (fun x => k))
  (at level 100, c at next level, right associativity) : py_scope.
Notation "c ;; k" := (bind c (fun _ => k))
  (at level 100, right associativity) : py_scope.

Local Open Scope py_scope.

(** What BSON holds of an int: eight bytes, signed.  The driver refuses
    to encode a document with a larger one. *)
Definition bson_int (n : Z) : bool := (- 2 ^ 63 <=? n) && (n <? 2 ^ 63).

Definition bson_number (v : number) : bool :=
  match v with
  | PInt n => bson_int n
  | PFloat _ => true
  end.

(** The ints of an order document: the subtotal when it is one, and the
    quantities of the items. *)
Definition bson_encodable {K : Type} (d : order K) : bool :=
  bson_number (subtotal d)
  && forallb (fun i => bson_int (Req.quantity i)) (items d).

(* ================================================================= *)
(** ** The store and the four order operations *)

Section Runtime.

(** The surroundings the code cannot see into.  [py] says which [sum]
    the interpreter has; [utc n] is what the [n]-th reading of the system
    clock returns; [new_oid n] is the [n]-th identifier the driver
    generates, each of them new to the store; [cursor_sort] is the
    store's [sort("created_at", -1)] on a collection scan; [store_sum] is
    the store's [$sum] accumulator. *)
Variable py : interpreter.
Variable utc : nat -> datetime.
Variable new_oid : nat -> ObjectId.t.
Variable cursor_sort : list order_doc -> list order_doc.
Variable store_sum : list number -> number.

(** [datetime.utcnow()] *)
Definition utcnow : M datetime :=
  fun w =>
    (Ret (utc (clock_reads w)),
     mk_world (db w) (S (clock_reads w)) (oids_made w)).

(** [if db is None: raise HTTPException(500, ...)] *)
Definition require_db : M unit :=
  fun w =>
    match db w with
    | None => (Raise (HTTPException 500 "Database not configured"), w)
    | Some _ => (Ret tt, w)
    end.

(** [db["order"]] *)
Definition order_collection : M (list order_doc) :=
  fun w =>
    match db w with
    | None => (Raise TypeError, w)
    | Some c => (Ret c, w)
    end.

Definition put_collection (c : list order_doc) : M unit :=
  fun w => (Ret tt, mk_world (Some c) (clock_reads w) (oids_made w)).

(** [insert_one(doc)]: the driver gives the document a fresh ["_id"]
    and encodes it, raising [OverflowError] on an int beyond eight bytes;
    the store appends the document; the result is [inserted_id]. *)
Definition insert_one (doc : order unit) : M ObjectId.t :=
  c <- order_collection ;;
  fun w =>
    let oid := new_oid (oids_made w) in
    if bson_encodable doc then
      (Ret oid,
       mk_world (Some (c ++ [bson_order (with_key oid doc)]))
         (clock_reads w) (S (oids_made w)))
    else
      (Raise OverflowError,
       mk_world (Some c) (clock_reads w) (S (oids_made w))).

(** The first document with the given ["_id"], rewritten by [f]; the
    second component is [matched_count]. *)
Fixpoint update_first (oid : ObjectId.t) (f : order_doc -> order_doc)
    (c : list order_doc) : list order_doc * Z :=
  match c with
  | [] => ([], 0)
  | d :: r =>
      if ObjectId.eqb (key d) oid then (f d :: r, 1)
      else let '(r', n) := update_first oid f r in (d :: r', n)
  end.

(** [update_one({"_id": oid}, {"$set": ...})], returning
    [matched_count]. *)
Definition update_one (oid : ObjectId.t) (f : order_doc -> order_doc) : M Z :=
  c <- order_collection ;;
  let '(c', n) := update_first oid f c in
  put_collection c' ;;
  ret n.

(** [find().sort("created_at", -1)] *)
Definition find_sorted : M (list order_doc) :=
  c <- order_collection ;;
  ret (cursor_sort c).

(** [{"$match": {"created_at": {"$gte": start, "$lt": end}}}] *)
Definition stage_match (start end_ : datetime) (c : list order_doc)
  : list order_doc :=
  filter (fun d =>
            (to_millis start <=? to_millis (created_at d))
            && (to_millis (created_at d) <? to_millis end_)) c.

(** The distinct values of a list, in order of first appearance. *)
Fixpoint distinct (l : list string) : list string :=
  match l with
  | [] => []
  | s :: r => s :: filter (fun x => negb (String.eqb x s)) (distinct r)
  end.

(** [{"$group": {"_id": "$status", "count": {"$sum": 1},
                 "revenue": {"$sum": "$subtotal"}}}] *)
Definition stage_group (c : list order_doc) : list group_row :=
  map (fun s =>
         let g := filter (fun d => String.eqb (status d) s) c in
         mk_row s (Z.of_nat (List.length g)) (store_sum (map subtotal g)))
      (distinct (map status c)).

(** [aggregate(pipeline)] *)
Definition aggregate (start end_ : datetime) : M (list group_row) :=
  c <- order_collection ;;
  ret (stage_group (stage_match start end_ c)).

(** The generator [item.price * item.quantity for item in req.items],
    consumed by [sum]. *)
Fixpoint line_totals (l : list Req.OrderItemIn) : outcome (list number) :=
  match l with
  | [] => Ret []
  | i :: r =>
      let? x := PyNum.mul (PFloat (Req.price i)) (PInt (Req.quantity i)) in
      let? xs := line_totals r in
      Ret (x :: xs)
  end.

(** [sum(item.price * item.quantity for item in req.items)] *)
Definition items_sum (l : list Req.OrderItemIn) : outcome number :=
  let? xs := line_totals l in PyNum.sum py xs.

(** The dict [doc] of [create_order], before it has a key. *)
Definition new_order (req : Req.CreateOrderRequest) (subtotal : number)
    (created updated : datetime) : order unit :=
  mk_order tt (Req.customer_name req) (Req.customer_email req)
    (Req.shipping_address req) (Req.items req)
    (PyNum.round subtotal 2) "pending" "qr" created updated None.

(** [POST /orders] *)
Definition create_order (req : Req.CreateOrderRequest) : M order_dict :=
  require_db ;;
  subtotal <- lift (items_sum (Req.items req)) ;;
  created <- utcnow ;;
  updated <- utcnow ;;
  let doc := new_order req subtotal created updated in
  inserted_id <- insert_one doc ;;
  ret (with_key (ObjectId.str inserted_id) doc).

(** [GET /orders] *)
Definition list_orders : M (list order_dict) :=
  require_db ;;
  found <- find_sorted ;;
  ret (map to_dict found).

(** [POST /orders/mark-paid]; the result is the value of ["updated"]. *)
Definition mark_paid (payload : Req.MarkPaidRequest) : M bool :=
  require_db ;;
  try_except
    (oid <- lift (ObjectId.of_str (Req.order_id payload)) ;;
     paid <- utcnow ;;
     upd <- utcnow ;;
     matched_count <- update_one oid (set_paid paid upd) ;;
     if matched_count =? 0
     then raise (HTTPException 404 "Order not found")
     else ret true)
    (raise (HTTPException 400 "Invalid ID")).

(** [a or b] on an optional int: [None] and [0] are falsy. *)
Definition py_or (a : option Z) (b : Z) : Z :=
  match a with
  | None => b
  | Some v => if v =? 0 then b else v
  end.

(** The tail of [monthly_report]: the response built from the rows of
    the aggregation. *)
Definition build_report (y m : Z) (agg : list group_row) : outcome report :=
  let summary :=
    map (fun row =>
           (row_id row,
            mk_summary (row_count row) (PyNum.round (row_revenue row) 2)))
        agg in
  let total_orders :=
    match agg with
    | [] => 0
    | _ => fold_left Z.add (map row_count agg) 0
    end in
  let? total_revenue :=
    match agg with
    | [] => Ret (PFloat zero)
    | _ => let? s := PyNum.sum py (map row_revenue agg) in
           Ret (PyNum.round s 2)
    end in
  Ret (mk_report y m summary total_orders total_revenue).

(** [GET /reports/monthly] *)
Definition monthly_report (year month : option Z) : M report :=
  require_db ;;
  now <- utcnow ;;
  let y := py_or year (Datetime.year now) in
  let m := py_or month (Datetime.month now) in
  start <- lift (dt y m 1) ;;
  end_ <- lift (if m =? 12 then dt (y + 1) 1 1 else dt y (m + 1) 1) ;;
  agg <- aggregate start end_ ;;
  lift (build_report y m agg).

(** The four routes behind one entry point. *)
Inductive request : Type :=
| PostOrders (req : Req.CreateOrderRequest)
| GetOrders
| PostMarkPaid (payload : Req.MarkPaidRequest)
| GetMonthlyReport (year month : option Z).

Inductive response : Type :=
| OrderCreated (o : order_dict)
| OrderList (l : list order_dict)
| PaidAck (updated : bool)
| Report (r : report).

Definition handle (r : request) : M response :=
  match r with
  | PostOrders req => o <- create_order req ;; ret (OrderCreated o)
  | GetOrders => l <- list_orders ;; ret (OrderList l)
  | PostMarkPaid p => b <- mark_paid p ;; ret (PaidAck b)
  | GetMonthlyReport y m => r <- monthly_report y m ;; ret (Report r)
  end.

End Runtime.

Arguments GetOrders : clear implicits.

(** What of each answer the JSON encoder can render. *)
Definition number_renders (v : number) : bool :=
  match v with
  | PInt _ => true
  | PFloat x => isfinite x
  end.

#[export] Instance renders_bool : Renders bool := fun _ => true.

#[export] Instance renders_order : Renders order_dict :=
  fun o =>
    number_renders (subtotal o)
    && forallb (fun i => isfinite (Req.price i)) (items o).

#[export] Instance renders_list {A : Type} `{Renders A} : Renders (list A) :=
  forallb renders.

#[export] Instance renders_report : Renders report :=
  fun r =>
    number_renders (total_revenue r)
    && forallb (fun e => number_renders (revenue (snd e))) (summary r).

#[export] Instance renders_response : Renders response :=
  fun r =>
    match r with
    | OrderCreated o => renders o
    | OrderList l => renders l
    | PaidAck b => renders b
    | Report x => renders x
    end.

(* ================================================================= *)
(** ** Vocabulary of the properties *)

(** The calendar-month window in the words of the report's contract:
    from the first instant of [(y, m)] up to, and without, the first
    instant of the month that follows. *)
Definition first_instant (y m : Z) : Z :=
  to_millis (mk_datetime y m 1 0 0 0 0).

Definition following_month (y m : Z) : Z * Z :=
  if m =? 12 then (y + 1, 1) else (y, m + 1).

Definition in_month_window (y m : Z) (t : datetime) : bool :=
  let '(y', m') := following_month y m in
  (first_instant y m <=? to_millis t) && (to_millis t <? first_instant y' m').

Definition orders_in_window (y m : Z) (c : list order_doc) : list order_doc :=
  filter (fun d => in_month_window y m (created_at d)) c.

Definition with_status (s : string) (c : list order_doc) : list order_doc :=
  filter (fun d => String.eqb (status d) s) c.

(** The number of documents per status, for a list of statuses. *)
Definition group_sizes (ks : list string) (c : list order_doc) : list Z :=
  map (fun s => Z.of_nat (List.length (with_status s c))) ks.

(** The [summary] dict that [monthly_report] builds over the documents
    [c] of the window. *)
Definition summary_of (store_sum : list number -> number)
    (c : list order_doc) : list (string * status_summary) :=
  map (fun row =>
         (row_id row,
          mk_summary (row_count row) (PyNum.round (row_revenue row) 2)))
      (stage_group store_sum c).

(** What the subtotal of a request depends on: price and quantity of each
    item, in order. *)
Definition price_qty (i : Req.OrderItemIn) : float * Z :=
  (Req.price i, Req.quantity i).

(** Every quantity is within the eight bytes the store gives an int. *)
Definition quantities_fit (l : list Req.OrderItemIn) : bool :=
  forallb (fun i => bson_int (Req.quantity i)) l.

(** [r] is [x] rounded to whole cents: a value that is no finite
    fraction is kept; otherwise [r] is the double nearest to [n / 100]
    for a whole number [n] of cents within half a cent of [x]. *)
Definition rounded_to_cents (x r : float) : Prop :=
  match x with
  | S754_finite sg m e =>
      if 0 <=? e then r = x
      else
        exists n : Z,
          0 <= n /\
          2 * Z.abs (Zpos m * 100 - n * 2 ^ (- e)) <= 2 ^ (- e) /\
          r = match n with
              | Zpos p => nearest sg p 100
              | _ => S754_zero sg
              end
  | _ => r = x
  end.


(** Point lookup by key: the first document carrying it. *)
Fixpoint find_one (oid : ObjectId.t) (c : list order_doc) : option order_doc :=
  match c with
  | [] => None
  | d :: r => if ObjectId.eqb (key d) oid then Some d else find_one oid r
  end.

(** [d'] is [d] except, possibly, in [paid_at] and [updated_at]. *)
Definition same_but_payment_times (d d' : order_doc) : Prop :=
  d' = mk_order (key d) (customer_name d) (customer_email d)
         (shipping_address d) (items d) (subtotal d) (status d)
         (payment_method d) (created_at d) (updated_at d') (paid_at d').

(** How one operation may move the status of a stored order: it stays,
    or it becomes "paid". *)
Definition status_step (d d' : order_doc) : Prop :=
  key d' = key d /\
  (status d' = status d \/ status d' = "paid") /\
  (status d = "paid" -> status d' = "paid") /\
  (status d' = "cancelled" -> status d = "cancelled").

(** Newest first: [created_at] never increases along the list. *)
Definition newer_or_equal (a b : order_doc) : Prop :=
  to_millis (created_at b) <= to_millis (created_at a).

Definition newest_first (l : list order_doc) : Prop :=
  StronglySorted newer_or_equal l.

(** A sort by descending key that keeps equal keys in the order they
    come in: each element, taken from the right, is put in front of the
    first element whose key is not greater than its own. *)
Fixpoint insert_desc {A : Type} (key : A -> Z) (x : A) (l : list A) : list A :=
  match l with
  | [] => [x]
  | y :: r =>
      if key x <? key y then y :: insert_desc key x r else x :: y :: r
  end.

Definition sort_desc {A : Type} (key : A -> Z) (l : list A) : list A :=
  fold_right (insert_desc key) [] l.

Definition created_millis (d : order_doc) : Z := to_millis (created_at d).

(** Modelled from the spec: the record store's sort of a collection scan,
    [find().sort("created_at", -1)], which belongs to the database layer
    and is not among the sources.  The spec has the orders come back
    sorted by [created_at] descending, ties broken by insertion order
    (stable). *)
Definition scan_sorted : list order_doc -> list order_doc :=
  sort_desc created_millis.

(* ================================================================= *)
(** ** A concrete runtime *)

Module Sample.

(** A clock that advances by 1.5 ms from one reading to the next,
    starting on 2024-03-15 at noon. *)
Definition clock (n : nat) : datetime :=
  mk_datetime 2024 3 15 12 0 0 (Z.of_nat n * 1500).

(** A clock that stands still. *)
Definition frozen (_ : nat) : datetime :=
  mk_datetime 2024 3 15 12 0 0 0.

Definition oid (n : nat) : ObjectId.t :=
  repeat Byte.x00 11
  ++ [match Byte.of_N (N.of_nat n mod 256) with
      | Some b => b
      | None => Byte.x00
      end].

(** [$sum] as a left-to-right addition, not-a-number on overflow. *)
Definition sum (l : list number) : number :=
  match PyNum.sum Before312 l with
  | Ret v => v
  | Raise _ => PFloat S754_nan
  end.

Definition world0 : world := mk_world (Some []) 0 0.

(** The last millisecond of February 2024 and the first instant of
    March 2024. *)
Definition feb_end : datetime := mk_datetime 2024 2 29 23 59 59 999000.
Definition mar_start : datetime := mk_datetime 2024 3 1 0 0 0 0.

Definition item (p : float) (q : Z) : Req.OrderItemIn :=
  Req.mk_item "p1" "shirt" p q.

Definition request (l : list Req.OrderItemIn) : Req.CreateOrderRequest :=
  Req.mk_request "Ann" "ann@example.org" "1 Main St" l.

(** A stored order with the given key, status and creation time. *)
Definition stored (k : nat) (st : string) (t : datetime) : order_doc :=
  mk_order (oid k) "Ann" "ann@example.org" "1 Main St" []
    (PFloat (decimal 1000 2)) st "qr" t t None.

(** Items 19.99 x 2 and 5.005 x 1. *)
Definition boundary_request : Req.CreateOrderRequest :=
  request [item (decimal 1999 2) 2; item (decimal 5005 3) 1].


Definition empty_request : Req.CreateOrderRequest := request [].

(** A store with one order at the end of February 2024 and one at the
    start of March 2024. *)
Definition world_feb_mar : world :=
  mk_world (Some [stored 0 "pending" feb_end; stored 1 "paid" mar_start])
    0 0.

(** A store with two orders created at the same instant. *)
Definition world_tie : world :=
  mk_world (Some [stored 0 "pending" feb_end; stored 1 "pending" feb_end])
    0 0.

(** The key of the first stored order, as a client writes it. *)
Definition first_key : Req.MarkPaidRequest :=
  Req.mk_mark_paid "000000000000000000000000".

(** A well-formed identifier that no stored order carries. *)
Definition absent_key : Req.MarkPaidRequest :=
  Req.mk_mark_paid "507f1f77bcf86cd799439011".

(** A string that is no identifier. *)
Definition malformed_key : Req.MarkPaidRequest :=
  Req.mk_mark_paid "not-an-object-id".

End Sample.

(* ================================================================= *)
(** ** The catalog and the accounts *)

(** The request models of the product and authentication routes. *)
Module ProductIn.
Record t : Type := mk {
  title : string;
  description : option string;
  price : float;
  category : option string;
  image_url : option string;
  in_stock : bool
}.
End ProductIn.

Module ProductUpdate.
Record t : Type := mk {
  title : option string;
  description : option string;
  price : option float;
  category : option string;
  image_url : option string;
  in_stock : option bool
}.
End ProductUpdate.

Module RegisterRequest.
Record t : Type := mk {
  name : string;
  email : string;
  password : string;
  role : string
}.
End RegisterRequest.

Module LoginRequest.
Record t : Type := mk {
  email : string;
  password : string
}.
End LoginRequest.

(** A product document, as [create_product] writes it: the fields of the
    request and two dates.  [K] is the type of the key, as for orders. *)
Record product (K : Type) : Type := mk_product {
  product_key : K;
  product_fields : ProductIn.t;
  product_created_at : datetime;
  product_updated_at : datetime
}.

Arguments mk_product {K}.
Arguments product_key {K}.
Arguments product_fields {K}.
Arguments product_created_at {K}.
Arguments product_updated_at {K}.

Definition product_doc : Type := product ObjectId.t.
Definition product_dict : Type := product string.

(** [to_dict] on a product document. *)
Definition product_to_dict (doc : product_doc) : product_dict :=
  mk_product (ObjectId.str (product_key doc)) (product_fields doc)
    (product_created_at doc) (product_updated_at doc).

(** The answer of [create_product]: the new ["id"] and the request's own
    fields, without the dates. *)
Record product_created : Type := mk_product_created {
  created_id : string;
  created_fields : ProductIn.t
}.

(** A user document, as [register] writes it. *)
Record user_doc : Type := mk_user {
  user_key : ObjectId.t;
  user_name : string;
  user_email : string;
  user_password : string;
  user_role : string;
  user_is_active : bool;
  user_created_at : datetime;
  user_updated_at : datetime
}.

(** The answer of [register] and of [login]. *)
Record account : Type := mk_account {
  account_id : string;
  account_name : string;
  account_email : string;
  account_role : string
}.

(** The whole site: the world of the order operations, whose [db] says
    whether the store is configured at all, and beside it the ["product"]
    and the ["user"] collection, each in insertion order. *)
Record site : Type := mk_site {
  base : world;
  products : list product_doc;
  users : list user_doc
}.

Definition Shop (A : Type) : Type := site -> outcome A * site.

Definition shop_ret {A : Type} (a : A) : Shop A := fun s => (Ret a, s).

Definition shop_raise {A : Type} (e : exn) : Shop A := fun s => (Raise e, s).

Definition shop_bind {A B : Type} (c : Shop A) (k : A -> Shop B) : Shop B :=
  fun s =>
    match c s with
    | (Ret a, s') => k a s'
    | (Raise e, s') => (Raise e, s')
    end.

(** [try: body except Exception: handler] *)
Definition shop_try {A : Type} (body handler : Shop A) : Shop A :=
  fun s =>
    match body s with
    | (Ret a, s') => (Ret a, s')
    | (Raise _, s') => handler s'
    end.

(** An action on the world of the orders, run inside the site. *)
Definition on_base {A : Type} (m : M A) : Shop A :=
  fun s =>
    let '(r, w') := m (base s) in
    (r, mk_site w' (products s) (users s)).

Declare Scope shop_scope.
Delimit Scope shop_scope with shop.

Notation "x <- c ;; k" := (shop_bind c (fun x => k))
  (at level 100, c at next level, right associativity) : shop_scope.
Notation "c ;; k" := (shop_bind c (fun _ => k))
  (at level 100, right associativity) : shop_scope.

(** The first element that satisfies [p] rewritten by [f]; the second
    component is [matched_count]. *)
Fixpoint update_where {A : Type} (p : A -> bool) (f : A -> A) (l : list A)
  : list A * Z :=
  match l with
  | [] => ([], 0)
  | x :: r =>
      if p x then (f x :: r, 1)
      else let '(r', n) := update_where p f r in (x :: r', n)
  end.

(** The first element that satisfies [p] removed; the second component
    is [deleted_count]. *)
Fixpoint delete_where {A : Type} (p : A -> bool) (l : list A) : list A * Z :=
  match l with
  | [] => ([], 0)
  | x :: r =>
      if p x then (r, 1)
      else let '(r', n) := delete_where p r in (x :: r', n)
  end.

Definition has_key (oid : ObjectId.t) (d : product_doc) : bool :=
  ObjectId.eqb (product_key d) oid.

(** The [$set] document of [update_product]: every field of the payload
    that is not [None], and ["updated_at"]. *)
Definition apply_updates (u : ProductUpdate.t) (upd : datetime)
    (d : product_doc) : product_doc :=
  let f := product_fields d in
  let pick {A : Type} (o : option A) (old : A) : A :=
    match o with
    | Some v => v
    | None => old
    end in
  let pick_opt {A : Type} (o : option A) (old : option A) : option A :=
    match o with
    | Some v => Some v
    | None => old
    end in
  mk_product (product_key d)
    (ProductIn.mk
       (pick (ProductUpdate.title u) (ProductIn.title f))
       (pick_opt (ProductUpdate.description u) (ProductIn.description f))
       (pick (ProductUpdate.price u) (ProductIn.price f))
       (pick_opt (ProductUpdate.category u) (ProductIn.category f))
       (pick_opt (ProductUpdate.image_url u) (ProductIn.image_url f))
       (pick (ProductUpdate.in_stock u) (ProductIn.in_stock f)))
    (product_created_at d) (bson upd).

(** [not updates]: the dict of the fields that are not [None] is empty. *)
Definition no_updates (u : ProductUpdate.t) : bool :=
  match ProductUpdate.title u, ProductUpdate.description u,
        ProductUpdate.price u, ProductUpdate.category u,
        ProductUpdate.image_url u, ProductUpdate.in_stock u with
  | None, None, None, None, None, None => true
  | _, _, _, _, _, _ => false
  end.

Section ShopRuntime.

Local Open Scope shop_scope.

Variable utc : nat -> datetime.
Variable new_oid : nat -> ObjectId.t.
(** The store's [sort("created_at", -1)] on the product collection. *)
Variable product_sort : list product_doc -> list product_doc.

(** [if db is None: raise HTTPException(500, ...)] *)
Definition shop_require_db : Shop unit := on_base require_db.

Definition shop_utcnow : Shop datetime := on_base (utcnow utc).

(** The driver makes the ["_id"] of a document that has none. *)
Definition draw_oid : Shop ObjectId.t :=
  fun s =>
    let w := base s in
    (Ret (new_oid (oids_made w)),
     mk_site (mk_world (db w) (clock_reads w) (S (oids_made w)))
       (products s) (users s)).

Definition get_products : Shop (list product_doc) :=
  fun s => (Ret (products s), s).

Definition put_products (l : list product_doc) : Shop unit :=
  fun s => (Ret tt, mk_site (base s) l (users s)).

Definition get_users : Shop (list user_doc) :=
  fun s => (Ret (users s), s).

Definition put_users (l : list user_doc) : Shop unit :=
  fun s => (Ret tt, mk_site (base s) (products s) l).

(** [POST /auth/register] *)
Definition register (req : RegisterRequest.t) : Shop account :=
  shop_require_db ;;
  us <- get_users ;;
  match find (fun u => String.eqb (user_email u) (RegisterRequest.email req))
             us with
  | Some _ => shop_raise (HTTPException 400 "Email already registered")
  | None =>
      created <- shop_utcnow ;;
      updated <- shop_utcnow ;;
      oid <- draw_oid ;;
      put_users
        (us ++ [mk_user oid (RegisterRequest.name req)
                  (RegisterRequest.email req) (RegisterRequest.password req)
                  (RegisterRequest.role req) true
                  (bson created) (bson updated)]) ;;
      shop_ret (mk_account (ObjectId.str oid) (RegisterRequest.name req)
                  (RegisterRequest.email req) (RegisterRequest.role req))
  end.

(** [POST /auth/login] *)
Definition login (req : LoginRequest.t) : Shop account :=
  shop_require_db ;;
  us <- get_users ;;
  match find (fun u =>
                String.eqb (user_email u) (LoginRequest.email req)
                && String.eqb (user_password u) (LoginRequest.password req))
             us with
  | None => shop_raise (HTTPException 401 "Invalid credentials")
  | Some u =>
      shop_ret (mk_account (ObjectId.str (user_key u)) (user_name u)
                  (user_email u) (user_role u))
  end.

(** [POST /products] *)
Definition create_product (p : ProductIn.t) : Shop product_created :=
  shop_require_db ;;
  created <- shop_utcnow ;;
  updated <- shop_utcnow ;;
  oid <- draw_oid ;;
  ps <- get_products ;;
  put_products (ps ++ [mk_product oid p (bson created) (bson updated)]) ;;
  shop_ret (mk_product_created (ObjectId.str oid) p).

(** [GET /products] *)
Definition list_products : Shop (list product_dict) :=
  shop_require_db ;;
  ps <- get_products ;;
  shop_ret (map product_to_dict (product_sort ps)).

(** [GET /products/{product_id}] *)
Definition get_product (product_id : string) : Shop product_dict :=
  shop_require_db ;;
  shop_try
    (oid <- on_base (lift (ObjectId.of_str product_id)) ;;
     ps <- get_products ;;
     match find (has_key oid) ps with
     | None => shop_raise (HTTPException 404 "Not found")
     | Some doc => shop_ret (product_to_dict doc)
     end)
    (shop_raise (HTTPException 400 "Invalid ID")).

(** [PUT /products/{product_id}]; the result is the value of
    ["updated"]. *)
Definition update_product (product_id : string) (payload : ProductUpdate.t)
  : Shop bool :=
  shop_require_db ;;
  if no_updates payload then shop_ret false
  else
    upd <- shop_utcnow ;;
    shop_try
      (oid <- on_base (lift (ObjectId.of_str product_id)) ;;
       ps <- get_products ;;
       let '(ps', matched_count) :=
         update_where (has_key oid) (apply_updates payload upd) ps in
       put_products ps' ;;
       if matched_count =? 0
       then shop_raise (HTTPException 404 "Not found")
       else shop_ret true)
      (shop_raise (HTTPException 400 "Invalid ID")).

(** [DELETE /products/{product_id}]; the result is the value of
    ["deleted"]. *)
Definition delete_product (product_id : string) : Shop bool :=
  shop_require_db ;;
  shop_try
    (oid <- on_base (lift (ObjectId.of_str product_id)) ;;
     ps <- get_products ;;
     let '(ps', deleted_count) := delete_where (has_key oid) ps in
     put_products ps' ;;
     if deleted_count =? 0
     then shop_raise (HTTPException 404 "Not found")
     else shop_ret true)
    (shop_raise (HTTPException 400 "Invalid ID")).

End ShopRuntime.

#[export] Instance renders_product : Renders product_dict :=
  fun d => isfinite (ProductIn.price (product_fields d)).

#[export] Instance renders_product_created : Renders product_created :=
  fun r => isfinite (ProductIn.price (created_fields r)).

#[export] Instance renders_account : Renders account := fun _ => true.



(** Some stored user has this e-mail address. *)
Definition registered (email : string) (us : list user_doc) : bool :=
  existsb (fun u => String.eqb (user_email u) email) us.

(** A datetime whose fields are in range, as every value of Python's
    [datetime] is. *)
Definition valid_datetime (t : datetime) : bool :=
  check_date_fields (year t) (month t) (day t)
  && (0 <=? hour t) && (hour t <? 24)
  && (0 <=? minute t) && (minute t <? 60)
  && (0 <=? second t) && (second t <? 60)
  && (0 <=? microsecond t) && (microsecond t <? 1000000).

(** Sample data for the catalog and the accounts. *)
Module SampleShop.

Definition shirt : ProductIn.t :=
  ProductIn.mk "shirt" (Some "cotton") (decimal 1999 2) None None true.


Definition ann : RegisterRequest.t :=
  RegisterRequest.mk "Ann" "ann@example.org" "secret" "admin".

Definition ann_login : LoginRequest.t :=
  LoginRequest.mk "ann@example.org" "secret".

Definition site0 : site := mk_site Sample.world0 [] [].

(** A site with one product, key [Sample.oid 0]. *)
Definition site1 : site :=
  mk_site (mk_world (Some []) 0 1)
    [mk_product (Sample.oid 0) shirt Sample.mar_start Sample.mar_start] [].

(** Price set to 0.0 and the product taken out of stock. *)
Definition zero_price_out_of_stock : ProductUpdate.t :=
  ProductUpdate.mk None None (Some zero) None None (Some false).

Definition nothing_to_update : ProductUpdate.t :=
  ProductUpdate.mk None None None None None None.

End SampleShop.

(* ================================================================= *)
(** ** Properties *)

Ltac run_py :=
  unfold bind, ret, raise, lift, try_except, require_db, order_collection,
    put_collection, utcnow; cbn [db clock_reads oids_made fst snd].

Section Properties.

Variable py : interpreter.
Variable utc : nat -> datetime.
Variable new_oid : nat -> ObjectId.t.
Variable cursor_sort : list order_doc -> list order_doc.
Variable store_sum : list number -> number.

(** *** Creating an order *)

(** The subtotal of an order is the int 0 or a float: it can always be
    encoded. *)
Lemma line_totals_are_floats (l : list Req.OrderItemIn) (xs : list number) :
  line_totals l = Ret xs ->
  exists fs, xs = map PFloat fs /\ (l = [] <-> fs = []).
Proof.
  revert xs. induction l as [|i r IH]; intros xs; cbn [line_totals].
  - intros H. injection H as <-. exists []. split; [reflexivity|tauto].
  - cbn [PyNum.mul to_double obind].
    destruct (of_int (Req.quantity i)) as [q|e]; cbn [obind]; [|discriminate].
    destruct (line_totals r) as [ys|e]; cbn [obind]; [|discriminate].
    intros H. injection H as <-. destruct (IH ys eq_refl) as (fs & -> & _).
    exists (fmul (Req.price i) q :: fs). split; [reflexivity|].
    split; discriminate.
Qed.

Lemma sum_from_floats (xs : list float) (a : float) :
  exists y, sum_from (PFloat a) (map PFloat xs) = Ret (PFloat y).
Proof.
  revert a. induction xs as [|x r IH]; intros a.
  - exists a. reflexivity.
  - cbn [map sum_from PyNum.add to_double obind]. apply IH.
Qed.

Lemma sum_floats_from_floats (xs : list float) (f c : float) :
  exists y, sum_floats_from f c (map PFloat xs) = Ret (PFloat y).
Proof.
  revert f c. induction xs as [|x r IH]; intros f c.
  - eexists. reflexivity.
  - cbn [map sum_floats_from]. apply IH.
Qed.

(** Adding up floats never fails, with either [sum]: the result is the
    int 0 for no float at all and a float otherwise. *)
Lemma sum_floats_kind (x : float) (r : list float) :
  exists y, PyNum.sum py (map PFloat (x :: r)) = Ret (PFloat y).
Proof.
  destruct py; unfold PyNum.sum;
    cbn [map sum_from sum_ints_from PyNum.add to_double];
    change (of_int 0) with (Ret zero); cbn [obind sum_after].
  - apply sum_from_floats.
  - apply sum_floats_from_floats.
Qed.

Lemma sum_floats (xs : list float) :
  exists v, PyNum.sum py (map PFloat xs) = Ret v.
Proof.
  destruct xs as [|x r].
  - exists (PInt 0). destruct py; reflexivity.
  - destruct (sum_floats_kind x r) as [y Hy]. exists (PFloat y). exact Hy.
Qed.

Lemma items_sum_kind (l : list Req.OrderItemIn) (s : number) :
  items_sum py l = Ret s ->
  (l = [] /\ s = PInt 0) \/ (l <> [] /\ exists x, s = PFloat x).
Proof.
  unfold items_sum. destruct (line_totals l) as [xs|e] eqn:Hxs;
    cbn [obind]; [|discriminate].
  destruct (line_totals_are_floats l xs Hxs) as (fs & -> & Hnil).
  destruct fs as [|x r].
  - intros H. left. split; [apply Hnil; reflexivity|].
    destruct py; cbn in H; congruence.
  - intros H. right. split; [intros E; apply Hnil in E; discriminate|].
    destruct (sum_floats_kind x r) as [y Hy]. exists y. congruence.
Qed.

(** The document [create_order] stores and the dict it returns, given
    the two clock readings and the identifier it draws. *)
Lemma create_order_run (req : Req.CreateOrderRequest) (w : world)
    (c : list order_doc) (s : number) :
  db w = Some c ->
  items_sum py (Req.items req) = Ret s ->
  quantities_fit (Req.items req) = true ->
  let doc := new_order req s (utc (clock_reads w)) (utc (S (clock_reads w))) in
  let oid := new_oid (oids_made w) in
  create_order py utc new_oid req w
  = (Ret (with_key (ObjectId.str oid) doc),
     mk_world (Some (c ++ [bson_order (with_key oid doc)]))
       (S (S (clock_reads w))) (S (oids_made w))).
Proof.
  intros Hdb Hsum Hfit. destruct w as [d n k]. cbn in Hdb. subst d.
  unfold create_order, insert_one. run_py.
  rewrite Hsum. cbn [fst snd].
  unfold bson_encodable. cbn [new_order subtotal items].
  unfold quantities_fit in Hfit. rewrite Hfit, andb_true_r.
  destruct (items_sum_kind _ _ Hsum) as [[_ ->]|[_ [x ->]]]; reflexivity.
Qed.

(** Whenever [create_order] returns, it ran as [create_order_run]
    says. *)
Lemma create_order_inv (req : Req.CreateOrderRequest) (w w' : world)
    (o : order_dict) :
  create_order py utc new_oid req w = (Ret o, w') ->
  exists c s,
    db w = Some c /\ items_sum py (Req.items req) = Ret s /\
    quantities_fit (Req.items req) = true.
Proof.
  destruct w as [[c|] n k]; unfold create_order, insert_one; run_py;
    [|discriminate].
  destruct (items_sum py (Req.items req)) as [s|e]; [|discriminate].
  cbn [fst snd]. unfold bson_encodable. cbn [new_order subtotal items].
  fold (quantities_fit (Req.items req)).
  destruct (quantities_fit (Req.items req)).
  - intros _. exists c, s. repeat split.
  - rewrite andb_false_r. discriminate.
Qed.



Lemma line_totals_ext (l l' : list Req.OrderItemIn) :
  map price_qty l = map price_qty l' -> line_totals l = line_totals l'.
Proof.
  revert l'. induction l as [|i r IH]; intros [|i' r'] H;
    try discriminate; [reflexivity|].
  cbn [map] in H. unfold price_qty at 1 3 in H. injection H as Hp Hq Hr.
  cbn [line_totals]. rewrite Hp, Hq, (IH r' Hr). reflexivity.
Qed.

Lemma items_sum_ext (l l' : list Req.OrderItemIn) :
  map price_qty l = map price_qty l' -> items_sum py l = items_sum py l'.
Proof.
  intros H. unfold items_sum. rewrite (line_totals_ext l l' H). reflexivity.
Qed.

(** Rounding a quotient to the nearest integer leaves at most half a
    unit. *)
Lemma div_half_even_close (a b : Z) :
  0 <= a -> 0 < b ->
  0 <= div_half_even a b /\ 2 * Z.abs (a - div_half_even a b * b) <= b.
Proof.
  intros Ha Hb. unfold div_half_even.
  pose proof (Z.div_mod a b ltac:(lia)) as Hdm.
  pose proof (Z.mod_pos_bound a b Hb) as Hr.
  pose proof (Z.div_pos a b Ha Hb) as Hq.
  set (q := a / b) in *. set (r := a mod b) in *.
  assert (Hqb : a - q * b = r) by lia.
  assert (Hqb1 : a - (q + 1) * b = r - b) by lia.
  destruct (Z.compare_spec (2 * r) b) as [E|L|G].
  - destruct (Z.even q); [rewrite Hqb|rewrite Hqb1]; lia.
  - rewrite Hqb. lia.
  - rewrite Hqb1. lia.
Qed.

(** [float.__round__(x, 2)] gives the double nearest to a whole number of
    cents that is within half a cent of [x]. *)
Lemma round_to_cents (x : float) : rounded_to_cents x (PyFloat.round x 2).
Proof.
  destruct x as [sg|sg| |sg m e]; cbn [rounded_to_cents]; try reflexivity.
  unfold PyFloat.round. change (NDIGITS_MAX <? 2)%N with false. cbv iota.
  destruct (0 <=? e) eqn:He; [reflexivity|].
  apply Z.leb_gt in He. change (pow10 2) with 100%positive.
  assert (Hb : 0 < 2 ^ (- e)) by (apply Z.pow_pos_nonneg; lia).
  destruct (div_half_even_close (Zpos m * 100) (2 ^ (- e)) ltac:(lia) Hb)
    as [Hn Hclose].
  exists (div_half_even (Zpos m * 100) (2 ^ (- e))).
  repeat split; assumption.
Qed.

(** C2 (amended). The subtotal that [create_order] returns and stores is
    [round(sum(price * quantity), 2)], computed in binary64 by the
    interpreter's own [sum] and [round]: it is the same in the answer and
    in the store, the int 0 for an order without items and otherwise the
    double nearest to the whole number of cents that is within half a
    cent of the float sum.  For the items 19.99 x 2 and 5.005 x 1 the
    call succeeds and that subtotal is the double 44.98, under either
    [sum]. *)
Theorem create_order_subtotal (req : Req.CreateOrderRequest) (w : world)
    (c : list order_doc) :
  db w = Some c ->
  (forall o w',
      create_order py utc new_oid req w = (Ret o, w') ->
      exists xs s d,
        line_totals (Req.items req) = Ret xs /\
        PyNum.sum py xs = Ret s /\
        subtotal o = PyNum.round s 2 /\
        db w' = Some (c ++ [d]) /\ subtotal d = PyNum.round s 2 /\
        (Req.items req = [] -> subtotal o = PInt 0) /\
        (Req.items req <> [] ->
         exists x,
           s = PFloat x /\ subtotal o = PFloat (PyFloat.round x 2) /\
           rounded_to_cents x (PyFloat.round x 2)))
  /\
  (map price_qty (Req.items req)
   = [(decimal 1999 2, 2); (decimal 5005 3, 1)] ->
   exists o w' d,
     create_order py utc new_oid req w = (Ret o, w') /\
     subtotal o = PFloat (decimal 4498 2) /\
     db w' = Some (c ++ [d]) /\ subtotal d = PFloat (decimal 4498 2)).
Proof.
  intros Hdb. split.
  - intros o w' Hrun.
    destruct (create_order_inv req w w' o Hrun) as (c0 & s & Hc0 & Hs & Hfit).
    rewrite (create_order_run req w c0 s Hc0 Hs Hfit) in Hrun.
    injection Hrun as Ho Hw. subst o w'.
    pose proof (items_sum_kind _ _ Hs) as Hkind.
    unfold items_sum in Hs.
    destruct (line_totals (Req.items req)) as [xs|e] eqn:Hxs;
      [|discriminate].
    cbn [obind] in Hs. rewrite Hdb in Hc0. injection Hc0 as <-.
    eexists xs, s, _. split; [reflexivity|]. split; [exact Hs|].
    split; [reflexivity|]. split; [reflexivity|]. split; [reflexivity|].
    cbn [with_key new_order subtotal]. split.
    + intros Hnil. destruct Hkind as [[_ ->]|[Hne _]];
        [reflexivity|contradiction].
    + intros Hne. destruct Hkind as [[Hnil _]|[_ [x ->]]]; [contradiction|].
      exists x. repeat split. apply round_to_cents.
  - intros Hitems.
    assert (Hs : items_sum py (Req.items req) = Ret (PFloat (decimal 44985 3))).
    { rewrite (items_sum_ext _
                 [Req.mk_item "" "" (decimal 1999 2) 2;
                  Req.mk_item "" "" (decimal 5005 3) 1] Hitems).
      destruct py; vm_compute; reflexivity. }
    assert (Hfit : quantities_fit (Req.items req) = true).
    { destruct (Req.items req) as [|i1 [|i2 [|i3 r]]]; try discriminate.
      cbn [map] in Hitems. unfold price_qty in Hitems.
      injection Hitems as _ Hq1 _ Hq2.
      unfold quantities_fit. cbn [forallb]. rewrite Hq1, Hq2. reflexivity. }
    rewrite (create_order_run req w c _ Hdb Hs Hfit).
    eexists _, _, _. split; [reflexivity|].
    repeat split; vm_compute; reflexivity.
Qed.


(** C7 (amended). Every order returned by [create_order] has status
    "pending" and payment method "qr", whatever the request holds.  Its
    [created_at] and [updated_at] are two successive readings of the
    UTC clock, [created_at] first; the stored document carries the same
    values at millisecond precision. *)
Theorem create_order_defaults (req : Req.CreateOrderRequest) (w w' : world)
    (o : order_dict) :
  create_order py utc new_oid req w = (Ret o, w') ->
  status o = "pending" /\ payment_method o = "qr" /\
  created_at o = utc (clock_reads w) /\
  updated_at o = utc (S (clock_reads w)) /\
  exists c d,
    db w = Some c /\ db w' = Some (c ++ [d]) /\
    ObjectId.str (key d) = key o /\
    status d = "pending" /\ payment_method d = "qr" /\
    created_at d = bson (created_at o) /\
    updated_at d = bson (updated_at o).
Proof.
  intros Hrun.
  destruct (create_order_inv req w w' o Hrun) as (c & s & Hc & Hs & Hfit).
  rewrite (create_order_run req w c s Hc Hs Hfit) in Hrun.
  injection Hrun as Ho Hw. subst o w'.
  repeat split.
  eexists c, _. repeat split; try eassumption; reflexivity.
Qed.

(** C9. A request with no items is not rejected: with the store
    configured, [create_order] succeeds, stores one more order, and the
    subtotal of that order is zero (the int [0], equal to [0.0]). *)
Theorem create_order_empty_items (req : Req.CreateOrderRequest) (w : world)
    (c : list order_doc) :
  Req.items req = [] ->
  db w = Some c ->
  exists o w' d,
    create_order py utc new_oid req w = (Ret o, w') /\
    http_status (fst (create_order py utc new_oid req w)) = 200 /\
    db w' = Some (c ++ [d]) /\
    items o = [] /\ items d = [] /\
    subtotal o = PInt 0 /\ subtotal d = PInt 0 /\
    PyNum.eqb (subtotal d) (PFloat zero) = true.
Proof.
  intros Hitems Hdb.
  assert (Hs : items_sum py (Req.items req) = Ret (PInt 0))
    by (rewrite Hitems; destruct py; reflexivity).
  assert (Hfit : quantities_fit (Req.items req) = true)
    by (rewrite Hitems; reflexivity).
  rewrite (create_order_run req w c _ Hdb Hs Hfit).
  eexists _, _, _. split; [reflexivity|].
  repeat split;
    unfold http_status, renders, renders_order;
    cbn [fst with_key bson_order new_order items subtotal PyNum.round
         number_renders];
    rewrite ?Hitems; reflexivity.
Qed.

(** *** Marking an order paid *)

Lemma oid_eqb_refl (a : ObjectId.t) : ObjectId.eqb a a = true.
Proof.
  unfold ObjectId.eqb. destruct (list_eq_dec Byte.byte_eq_dec a a);
    [reflexivity|contradiction].
Qed.

Lemma update_first_absent (oid : ObjectId.t) (f : order_doc -> order_doc)
    (c : list order_doc) :
  find_one oid c = None -> update_first oid f c = (c, 0).
Proof.
  induction c as [|d r IH]; cbn [find_one update_first]; [reflexivity|].
  destruct (ObjectId.eqb (key d) oid); [discriminate|].
  intros H. rewrite (IH H). reflexivity.
Qed.

Lemma update_first_present (oid : ObjectId.t) (f : order_doc -> order_doc)
    (c : list order_doc) (d : order_doc) :
  (forall x, key (f x) = key x) ->
  find_one oid c = Some d ->
  snd (update_first oid f c) = 1 /\
  find_one oid (fst (update_first oid f c)) = Some (f d).
Proof.
  intros Hkey. induction c as [|x r IH]; cbn [find_one update_first];
    [discriminate|].
  destruct (ObjectId.eqb (key x) oid) eqn:E.
  - intros H. injection H as <-. cbn [fst snd find_one].
    rewrite Hkey, E. split; reflexivity.
  - intros H. destruct (IH H) as [IH1 IH2].
    destruct (update_first oid f r) as [r' n]. cbn [fst snd] in *.
    cbn [find_one]. rewrite E. split; assumption.
Qed.

(** A second update of the same key lands on the same document. *)
Lemma update_first_twice (oid : ObjectId.t) (f g : order_doc -> order_doc)
    (c : list order_doc) :
  (forall x, key (f x) = key x) ->
  fst (update_first oid g (fst (update_first oid f c)))
  = fst (update_first oid (fun x => g (f x)) c).
Proof.
  intros Hkey. induction c as [|x r IH]; [reflexivity|].
  cbn [update_first]. destruct (ObjectId.eqb (key x) oid) eqn:E.
  - cbn [fst update_first]. rewrite Hkey, E. reflexivity.
  - destruct (update_first oid f r) as [r1 n1].
    destruct (update_first oid (fun x => g (f x)) r) as [r2 n2].
    cbn [fst] in *. cbn [update_first]. rewrite E.
    destruct (update_first oid g r1) as [r3 n3]. cbn [fst] in *.
    rewrite IH. reflexivity.
Qed.

Lemma update_first_related (R : order_doc -> order_doc -> Prop)
    (oid : ObjectId.t) (f g : order_doc -> order_doc) (c : list order_doc) :
  (forall x, R x x) ->
  (forall x, ObjectId.eqb (key x) oid = true -> R (f x) (g x)) ->
  Forall2 R (fst (update_first oid f c)) (fst (update_first oid g c)).
Proof.
  intros Hrefl Hfg. induction c as [|x r IH]; [constructor|].
  cbn [update_first]. destruct (ObjectId.eqb (key x) oid) eqn:E.
  - cbn [fst]. constructor; [apply Hfg, E|].
    clear - Hrefl. induction r; constructor; auto.
  - destruct (update_first oid f r) as [r1 n1].
    destruct (update_first oid g r) as [r2 n2]. cbn [fst] in *.
    constructor; [apply Hrefl|exact IH].
Qed.

(** How [mark_paid] runs once the store is there and the identifier
    parses: two clock readings, one update, and the answer decided by
    [matched_count] -- where the 404 raised inside the [try] is caught
    by its own [except Exception] and leaves as a 400. *)
Lemma mark_paid_run (p : Req.MarkPaidRequest) (w : world)
    (c : list order_doc) (oid : ObjectId.t) :
  db w = Some c ->
  ObjectId.of_str (Req.order_id p) = Ret oid ->
  let t1 := utc (clock_reads w) in
  let t2 := utc (S (clock_reads w)) in
  let u := update_first oid (set_paid t1 t2) c in
  mark_paid utc p w
  = (if snd u =? 0 then Raise (HTTPException 400 "Invalid ID") else Ret true,
     mk_world (Some (fst u)) (S (S (clock_reads w))) (oids_made w)).
Proof.
  intros Hdb Hoid. destruct w as [d n k]. cbn in Hdb. subst d.
  unfold mark_paid, update_one. run_py. rewrite Hoid.
  cbn [clock_reads oids_made].
  destruct (update_first oid (set_paid (utc n) (utc (S n))) c) as [c' m].
  cbn [fst snd db clock_reads oids_made]. destruct (m =? 0); reflexivity.
Qed.

Lemma mark_paid_malformed (p : Req.MarkPaidRequest) (w : world)
    (c : list order_doc) (e : exn) :
  db w = Some c ->
  ObjectId.of_str (Req.order_id p) = Raise e ->
  mark_paid utc p w = (Raise (HTTPException 400 "Invalid ID"), w).
Proof.
  intros Hdb Hoid. destruct w as [d n k]. cbn in Hdb. subst d.
  unfold mark_paid. run_py. rewrite Hoid. reflexivity.
Qed.

(** A well-formed identifier that matches no stored order is answered
    exactly like a malformed one. *)
Lemma mark_paid_absent (p : Req.MarkPaidRequest) (w : world)
    (c : list order_doc) (oid : ObjectId.t) :
  db w = Some c ->
  ObjectId.of_str (Req.order_id p) = Ret oid ->
  find_one oid c = None ->
  fst (mark_paid utc p w) = Raise (HTTPException 400 "Invalid ID").
Proof.
  intros Hdb Hoid Habs. rewrite (mark_paid_run p w c oid Hdb Hoid).
  rewrite (update_first_absent _ _ _ Habs). reflexivity.
Qed.

Lemma same_but_payment_times_refl (d : order_doc) :
  same_but_payment_times d d.
Proof. destruct d. reflexivity. Qed.

(** C4. With the store configured, marking an existing order paid twice
    in a row, by the same well-formed identifier, succeeds both times;
    the order is "paid" after the first call and after the second; and
    the second call leaves every stored document as it was except for
    [paid_at] and [updated_at] of that order, which take the two clock
    readings of the second call. *)
Theorem mark_paid_twice (p : Req.MarkPaidRequest) (w : world)
    (c : list order_doc) (oid : ObjectId.t) (d : order_doc) :
  db w = Some c ->
  ObjectId.of_str (Req.order_id p) = Ret oid ->
  find_one oid c = Some d ->
  exists w1 w2 c1 c2 d1 d2,
    mark_paid utc p w = (Ret true, w1) /\
    mark_paid utc p w1 = (Ret true, w2) /\
    db w1 = Some c1 /\ db w2 = Some c2 /\
    find_one oid c1 = Some d1 /\ status d1 = "paid" /\
    find_one oid c2 = Some d2 /\ status d2 = "paid" /\
    Forall2 same_but_payment_times c1 c2 /\
    paid_at d2 = Some (bson (utc (clock_reads w1))) /\
    updated_at d2 = bson (utc (S (clock_reads w1))).
Proof.
  intros Hdb Hoid Hd.
  set (f1 := set_paid (utc (clock_reads w)) (utc (S (clock_reads w)))).
  set (w1 := mk_world (Some (fst (update_first oid f1 c)))
               (S (S (clock_reads w))) (oids_made w)).
  set (f2 := set_paid (utc (clock_reads w1)) (utc (S (clock_reads w1)))).
  assert (Hk1 : forall x, key (f1 x) = key x) by reflexivity.
  assert (Hk2 : forall x, key (f2 x) = key x) by reflexivity.
  destruct (update_first_present oid f1 c d Hk1 Hd) as [Hn1 Hf1].
  destruct (update_first_present oid f2 _ _ Hk2 Hf1) as [Hn2 Hf2].
  exists w1,
    (mk_world (Some (fst (update_first oid f2 (fst (update_first oid f1 c)))))
       (S (S (clock_reads w1))) (oids_made w1)),
    (fst (update_first oid f1 c)),
    (fst (update_first oid f2 (fst (update_first oid f1 c)))),
    (f1 d), (f2 (f1 d)).
  split.
  { rewrite (mark_paid_run p w c oid Hdb Hoid). fold f1. rewrite Hn1.
    reflexivity. }
  split.
  { rewrite (mark_paid_run p w1 _ oid eq_refl Hoid). fold f2.
    cbn [db w1] in *. rewrite Hn2. reflexivity. }
  repeat split; try assumption.
  rewrite (update_first_twice oid f1 f2 c Hk1).
  apply update_first_related.
  - apply same_but_payment_times_refl.
  - intros x _. reflexivity.
Qed.

(** *** The monthly report *)

(** How [monthly_report] runs once the store is there and both ends of
    the window are valid dates: one clock reading, one aggregation. *)
Lemma monthly_report_run (year month : option Z) (w : world)
    (c : list order_doc) (start end_ : datetime) :
  db w = Some c ->
  let now := utc (clock_reads w) in
  let y := py_or year (Datetime.year now) in
  let m := py_or month (Datetime.month now) in
  dt y m 1 = Ret start ->
  (if m =? 12 then dt (y + 1) 1 1 else dt y (m + 1) 1) = Ret end_ ->
  monthly_report py utc store_sum year month w
  = (build_report py y m (stage_group store_sum (stage_match start end_ c)),
     mk_world (Some c) (S (clock_reads w)) (oids_made w)).
Proof.
  intros Hdb. destruct w as [d n k]. cbn in Hdb. subst d.
  cbv zeta. cbn [clock_reads oids_made]. intros Hs He.
  unfold monthly_report, aggregate. run_py. rewrite Hs, He. reflexivity.
Qed.

(** Reading operations leave the collection alone. *)
Lemma monthly_report_reads (year month : option Z) (w : world) :
  db (snd (monthly_report py utc store_sum year month w)) = db w.
Proof.
  destruct w as [[c|] n k]; [|reflexivity].
  unfold monthly_report, aggregate. run_py.
  destruct (dt _ _ 1) as [start|]; [|reflexivity].
  destruct (if _ =? 12 then _ else _) as [end_|]; [|reflexivity].
  cbn [db]. destruct (build_report _ _ _ _); reflexivity.
Qed.

Lemma list_orders_reads (w : world) :
  db (snd (list_orders cursor_sort w)) = db w.
Proof.
  destruct w as [[c|] n k]; reflexivity.
Qed.

(** *** Status transitions *)

Lemma status_step_refl (d : order_doc) : status_step d d.
Proof.
  unfold status_step. repeat split; auto.
Qed.

Lemma status_step_set_paid (t1 t2 : datetime) (d : order_doc) :
  status_step d (set_paid t1 t2 d).
Proof.
  unfold status_step. cbn [set_paid key status].
  repeat split; auto. discriminate.
Qed.

Lemma Forall2_status_refl (c : list order_doc) : Forall2 status_step c c.
Proof.
  induction c; constructor; auto using status_step_refl.
Qed.

Lemma update_first_status (oid : ObjectId.t) (t1 t2 : datetime)
    (c : list order_doc) :
  Forall2 status_step c (fst (update_first oid (set_paid t1 t2) c)).
Proof.
  induction c as [|x r IH]; [constructor|].
  cbn [update_first]. destruct (ObjectId.eqb (key x) oid).
  - cbn [fst]. constructor;
      [apply status_step_set_paid|apply Forall2_status_refl].
  - destruct (update_first oid (set_paid t1 t2) r) as [r' n].
    cbn [fst] in *. constructor; [apply status_step_refl|exact IH].
Qed.

Lemma create_order_writes (req : Req.CreateOrderRequest) (w : world)
    (c : list order_doc) :
  db w = Some c ->
  db (snd (create_order py utc new_oid req w)) = Some c \/
  exists d,
    db (snd (create_order py utc new_oid req w)) = Some (c ++ [d]) /\
    status d = "pending".
Proof.
  intros Hdb. destruct (items_sum py (Req.items req)) as [s|e] eqn:Hs.
  - destruct (quantities_fit (Req.items req)) eqn:Hfit.
    + right. rewrite (create_order_run req w c s Hdb Hs Hfit).
      eexists. split; reflexivity.
    + left. destruct w as [d n k]. cbn in Hdb. subst d.
      unfold create_order, insert_one. run_py. rewrite Hs. cbn [fst snd].
      unfold bson_encodable. cbn [new_order subtotal items].
      fold (quantities_fit (Req.items req)).
      rewrite Hfit, andb_false_r. reflexivity.
  - left. destruct w as [d n k]. cbn in Hdb. subst d.
    unfold create_order. run_py. rewrite Hs. reflexivity.
Qed.

Lemma mark_paid_writes (p : Req.MarkPaidRequest) (w : world)
    (c : list order_doc) :
  db w = Some c ->
  exists c',
    db (snd (mark_paid utc p w)) = Some c' /\ Forall2 status_step c c'.
Proof.
  intros Hdb. destruct (ObjectId.of_str (Req.order_id p)) as [oid|e] eqn:Ho.
  - rewrite (mark_paid_run p w c oid Hdb Ho). cbn [snd db].
    eexists. split; [reflexivity|apply update_first_status].
  - rewrite (mark_paid_malformed p w c e Hdb Ho). cbn [snd].
    exists c. split; [assumption|apply Forall2_status_refl].
Qed.

Lemma db_after_bind_ret {A B : Type} (m : M A) (f : A -> B) (w : world) :
  db (snd (bind m (fun a => ret (f a)) w)) = db (snd (m w)).
Proof.
  unfold bind, ret. destruct (m w) as [[a|e] w']; reflexivity.
Qed.

(** C6. Status moves one way.  Whatever the request -- creating an
    order, listing orders, marking one paid, asking for the monthly
    report -- every order stored before is still there afterwards, at
    its place and under its key, with its status unchanged or turned to
    "paid": a "paid" order stays "paid", and no order becomes
    "cancelled".  The only documents added carry status "pending". *)
Theorem status_is_monotonic (r : request) (w : world) (c : list order_doc) :
  db w = Some c ->
  exists upd new,
    db (snd (handle py utc new_oid cursor_sort store_sum r w))
    = Some (upd ++ new) /\
    Forall2 status_step c upd /\
    Forall (fun d => status d = "pending") new.
Proof.
  intros Hdb. destruct r as [req| |p|y m]; cbn [handle];
    rewrite db_after_bind_ret.
  - destruct (create_order_writes req w c Hdb) as [H|[d [H Hd]]]; rewrite H.
    + exists c, []. rewrite app_nil_r.
      repeat split; auto using Forall2_status_refl.
    + exists c, [d]. repeat split; auto using Forall2_status_refl.
  - rewrite list_orders_reads, Hdb. exists c, []. rewrite app_nil_r.
    repeat split; auto using Forall2_status_refl.
  - destruct (mark_paid_writes p w c Hdb) as [c' [H Hc']]. rewrite H.
    exists c', []. rewrite app_nil_r. repeat split; auto.
  - rewrite monthly_report_reads, Hdb. exists c, []. rewrite app_nil_r.
    repeat split; auto using Forall2_status_refl.
Qed.

(** C10. A [year] of 0 passed to [monthly_report] is treated as no
    [year] at all, and likewise a [month] of 0: the call behaves as the
    call without that parameter, and the report it returns carries the
    year, respectively the month, of the current UTC date. *)
Theorem monthly_report_zero_as_omitted (year month : option Z) (w : world) :
  monthly_report py utc store_sum (Some 0) month w
  = monthly_report py utc store_sum None month w /\
  monthly_report py utc store_sum year (Some 0) w
  = monthly_report py utc store_sum year None w /\
  (forall r w',
      monthly_report py utc store_sum (Some 0) month w = (Ret r, w') ->
      report_year r = Datetime.year (utc (clock_reads w))) /\
  (forall r w',
      monthly_report py utc store_sum year (Some 0) w = (Ret r, w') ->
      report_month r = Datetime.month (utc (clock_reads w))).
Proof.
  split; [reflexivity|]. split; [reflexivity|].
  split; intros r w'; destruct w as [[c|] n k];
    unfold monthly_report, aggregate; run_py; try discriminate;
    cbn [py_or Z.eqb];
    (destruct (dt _ _ 1) as [start|]; [|discriminate]);
    (destruct (if _ =? 12 then _ else _) as [end_|]; [|discriminate]);
    unfold build_report;
    match goal with
    | |- context [obind ?x _] => destruct x; cbn [obind]
    end;
    intros H; try discriminate; injection H as <- _; reflexivity.
Qed.

(** *** The window of the report *)

Lemma days_in_month_bounds (y m : Z) :
  1 <= m <= 12 -> 28 <= days_in_month y m <= 31.
Proof.
  intros H.
  assert (Hm : m = 1 \/ m = 2 \/ m = 3 \/ m = 4 \/ m = 5 \/ m = 6 \/
               m = 7 \/ m = 8 \/ m = 9 \/ m = 10 \/ m = 11 \/ m = 12) by lia.
  unfold days_in_month. clear H. destruct (is_leap y);
    repeat (destruct Hm as [Hm|Hm]; [subst m; simpl; lia|]);
    subst m; simpl; lia.
Qed.

Lemma dt_first_of_month (y m : Z) :
  1 <= y <= 9999 -> 1 <= m <= 12 ->
  dt y m 1 = Ret (mk_datetime y m 1 0 0 0 0).
Proof.
  intros Hy Hm. pose proof (days_in_month_bounds y m Hm) as Hd.
  unfold dt, check_date_fields, MINYEAR, MAXYEAR.
  replace (1 <=? y) with true by (symmetry; apply Z.leb_le; lia).
  replace (y <=? 9999) with true by (symmetry; apply Z.leb_le; lia).
  replace (1 <=? m) with true by (symmetry; apply Z.leb_le; lia).
  replace (m <=? 12) with true by (symmetry; apply Z.leb_le; lia).
  replace (1 <=? days_in_month y m) with true
    by (symmetry; apply Z.leb_le; lia).
  assert (Hfit : forall v, 1 <= v <= 9999 -> fits_c_int v = true).
  { intros v Hv. unfold fits_c_int. apply andb_true_intro.
    split; [apply Z.leb_le|apply Z.ltb_lt]; lia. }
  rewrite (Hfit y), (Hfit m), (Hfit 1) by lia. reflexivity.
Qed.

Lemma dt_following_month (y m : Z) :
  1 <= y <= 9999 -> 1 <= m <= 12 -> y < 9999 \/ m < 12 ->
  (if m =? 12 then dt (y + 1) 1 1 else dt y (m + 1) 1)
  = Ret (mk_datetime (fst (following_month y m)) (snd (following_month y m))
           1 0 0 0 0).
Proof.
  intros Hy Hm Hlast. unfold following_month.
  destruct (Z.eqb_spec m 12) as [->|Hne]; cbn [fst snd];
    apply dt_first_of_month; lia.
Qed.

Lemma stage_match_window (y m : Z) (c : list order_doc) :
  stage_match (mk_datetime y m 1 0 0 0 0)
    (mk_datetime (fst (following_month y m)) (snd (following_month y m))
       1 0 0 0 0) c
  = orders_in_window y m c.
Proof.
  unfold stage_match, orders_in_window, in_month_window, first_instant.
  destruct (following_month y m) as [y' m']. reflexivity.
Qed.

(** *** Grouping by status *)

Lemma distinct_In (l : list string) (x : string) :
  In x (distinct l) <-> In x l.
Proof.
  induction l as [|s r IH]; [reflexivity|].
  cbn [distinct In]. rewrite filter_In, IH.
  destruct (String.eqb_spec x s) as [->|Hne]; cbn [negb]; intuition congruence.
Qed.

Lemma distinct_NoDup (l : list string) : NoDup (distinct l).
Proof.
  induction l as [|s r IH]; cbn [distinct]; constructor.
  - rewrite filter_In, String.eqb_refl. intros [_ H]. discriminate.
  - apply NoDup_filter, IH.
Qed.

Lemma fold_left_add (l : list Z) (a : Z) :
  fold_left Z.add l a = a + fold_left Z.add l 0.
Proof.
  revert a. induction l as [|x r IH]; intros a; cbn [fold_left]; [lia|].
  rewrite (IH (a + x)), (IH (0 + x)). lia.
Qed.

Lemma group_sizes_cons (ks : list string) (d : order_doc)
    (c : list order_doc) :
  fold_left Z.add (group_sizes ks (d :: c)) 0
  = fold_left Z.add (group_sizes ks c) 0
    + Z.of_nat (count_occ string_dec ks (status d)).
Proof.
  induction ks as [|k r IH]; [reflexivity|].
  unfold group_sizes in *. cbn [map fold_left count_occ].
  rewrite fold_left_add, IH.
  rewrite (fold_left_add _ (0 + _)).
  unfold with_status at 1 3. cbn [filter].
  destruct (string_dec k (status d)) as [->|Hne].
  - rewrite String.eqb_refl. cbn [List.length]. lia.
  - destruct (String.eqb_spec (status d) k) as [E|_]; [congruence|]. lia.
Qed.

(** Groups over distinct keys that cover every status partition the
    documents. *)
Lemma group_sizes_total (ks : list string) (c : list order_doc) :
  NoDup ks ->
  (forall d, In d c -> In (status d) ks) ->
  fold_left Z.add (group_sizes ks c) 0 = Z.of_nat (List.length c).
Proof.
  intros Hnd. induction c as [|d r IH]; intros Hcov.
  - unfold group_sizes. clear. induction ks; [reflexivity|]. exact IHks.
  - rewrite group_sizes_cons, IH by (intros; apply Hcov; right; assumption).
    assert (Hin : In (status d) ks) by (apply Hcov; left; reflexivity).
    rewrite (proj1 (NoDup_count_occ' string_dec ks) Hnd _ Hin).
    cbn [List.length]. lia.
Qed.

Lemma stage_group_counts (c : list order_doc) :
  map row_count (stage_group store_sum c)
  = group_sizes (distinct (map status c)) c.
Proof.
  unfold stage_group, group_sizes. rewrite map_map. reflexivity.
Qed.

Lemma stage_group_total (c : list order_doc) :
  fold_left Z.add (map row_count (stage_group store_sum c)) 0
  = Z.of_nat (List.length c).
Proof.
  rewrite stage_group_counts. apply group_sizes_total.
  - apply distinct_NoDup.
  - intros d Hd. apply distinct_In, in_map, Hd.
Qed.

Lemma summary_get_keys (s : string) (ks : list string) (c : list order_doc) :
  option_map orders
    (summary_get s
       (map (fun row =>
               (row_id row,
                mk_summary (row_count row)
                  (PyNum.round (row_revenue row) 2)))
            (map (fun k =>
                    mk_row k (Z.of_nat (List.length (with_status k c)))
                      (store_sum (map subtotal (with_status k c))))
                 ks)))
  = if in_dec string_dec s ks
    then Some (Z.of_nat (List.length (with_status s c)))
    else None.
Proof.
  induction ks as [|k r IH]; [reflexivity|].
  cbn [map summary_get row_id row_count].
  destruct (String.eqb_spec k s) as [->|Hne].
  - destruct (in_dec string_dec s (s :: r)) as [_|H];
      [reflexivity|exfalso; apply H; left; reflexivity].
  - rewrite IH. destruct (in_dec string_dec s r) as [Hin|Hout];
      destruct (in_dec string_dec s (k :: r)) as [Hin'|Hout'];
      try reflexivity.
    + exfalso. apply Hout'. right. exact Hin.
    + exfalso. destruct Hin' as [E|Hin']; [congruence|contradiction].
Qed.

Lemma summary_get_orders (s : string) (c : list order_doc) :
  option_map orders (summary_get s (summary_of store_sum c))
  = match with_status s c with
    | [] => None
    | g => Some (Z.of_nat (List.length g))
    end.
Proof.
  unfold summary_of, stage_group. fold (with_status).
  change (fun s0 => mk_row s0
            (Z.of_nat (List.length (filter (fun d => String.eqb (status d) s0) c)))
            (store_sum (map subtotal (filter (fun d => String.eqb (status d) s0) c))))
    with (fun k => mk_row k (Z.of_nat (List.length (with_status k c)))
                     (store_sum (map subtotal (with_status k c)))).
  rewrite summary_get_keys.
  destruct (in_dec string_dec s (distinct (map status c))) as [Hin|Hout].
  - apply distinct_In, in_map_iff in Hin. destruct Hin as (d & Hs & Hd).
    assert (Hd' : In d (with_status s c)).
    { unfold with_status. apply filter_In. split; [exact Hd|].
      rewrite Hs. apply String.eqb_refl. }
    destruct (with_status s c); [contradiction|reflexivity].
  - destruct (with_status s c) as [|d g] eqn:E; [reflexivity|].
    exfalso. apply Hout, distinct_In, in_map_iff.
    assert (Hd : In d (with_status s c)) by (rewrite E; left; reflexivity).
    unfold with_status in Hd. apply filter_In in Hd. destruct Hd as [Hd Hs].
    exists d. split; [apply String.eqb_eq, Hs|exact Hd].
Qed.

Lemma py_or_some (v b : Z) : v <> 0 -> py_or (Some v) b = v.
Proof.
  intros H. unfold py_or. destruct (Z.eqb_spec v 0); [contradiction|reflexivity].
Qed.

Lemma build_report_returns (y m : Z) (agg : list group_row) (v : number) :
  PyNum.sum py (map row_revenue agg) = Ret v ->
  exists rev,
    build_report py y m agg
    = Ret (mk_report y m
             (map (fun row =>
                     (row_id row,
                      mk_summary (row_count row)
                        (PyNum.round (row_revenue row) 2))) agg)
             (fold_left Z.add (map row_count agg) 0) rev).
Proof.
  intros Hv. unfold build_report. destruct agg as [|row rest].
  - eexists. reflexivity.
  - rewrite Hv. eexists. reflexivity.
Qed.

(** C3. For a calendar month [(y, m)] whose window exists
    ([1 <= y <= 9999], [1 <= m <= 12], not December 9999),
    [monthly_report] returns a report for [(y, m)] that counts exactly
    the stored orders whose [created_at] lies in the half-open window
    from the first instant of [(y, m)] to the first instant of the
    following month: [total_orders] is their number and each status
    has, in [summary], the number of them with that status, or no entry
    when there is none.  (The report exists provided adding up the
    revenues of the groups does not overflow.)  An order created at
    2024-02-29T23:59:59.999 is inside the window of February 2024 and
    outside that of March 2024; one created at 2024-03-01T00:00:00.000
    is outside the window of February 2024 and inside that of March. *)
Theorem monthly_report_window (y m : Z) (w : world) (c : list order_doc)
    (v : number) :
  db w = Some c ->
  1 <= y <= 9999 -> 1 <= m <= 12 -> y < 9999 \/ m < 12 ->
  PyNum.sum py
    (map row_revenue (stage_group store_sum (orders_in_window y m c)))
  = Ret v ->
  (exists r w',
      monthly_report py utc store_sum (Some y) (Some m) w = (Ret r, w') /\
      report_year r = y /\ report_month r = m /\
      total_orders r = Z.of_nat (List.length (orders_in_window y m c)) /\
      forall s,
        option_map orders (summary_get s (summary r))
        = match with_status s (orders_in_window y m c) with
          | [] => None
          | g => Some (Z.of_nat (List.length g))
          end)
  /\ in_month_window 2024 2 Sample.feb_end = true
  /\ in_month_window 2024 3 Sample.feb_end = false
  /\ in_month_window 2024 2 Sample.mar_start = false
  /\ in_month_window 2024 3 Sample.mar_start = true.
Proof.
  intros Hdb Hy Hm Hlast Hv.
  split; [|repeat split; vm_compute; reflexivity].
  pose proof (monthly_report_run (Some y) (Some m) w c
                (mk_datetime y m 1 0 0 0 0)
                (mk_datetime (fst (following_month y m))
                   (snd (following_month y m)) 1 0 0 0 0) Hdb) as Hrun.
  cbv zeta in Hrun. rewrite !py_or_some in Hrun by lia.
  specialize (Hrun (dt_first_of_month y m Hy Hm)
                   (dt_following_month y m Hy Hm Hlast)).
  rewrite stage_match_window in Hrun.
  destruct (build_report_returns y m _ v Hv) as [rev Hrep].
  rewrite Hrep in Hrun.
  eexists _, _. split; [exact Hrun|].
  cbn [report_year report_month total_orders summary].
  repeat split.
  - apply stage_group_total.
  - intros s. apply summary_get_orders.
Qed.

(** A year is 365 days long, 366 when it is a leap year. *)
Lemma year_length (y : Z) :
  days_before_year (y + 1) - days_before_year y
  = 365 + (if is_leap y then 1 else 0).
Proof.
  unfold days_before_year, is_leap. replace (y + 1 - 1) with y by lia.
  destruct (Z.eqb_spec (y mod 4) 0) as [H4|H4];
    destruct (Z.eqb_spec (y mod 100) 0) as [H100|H100];
    destruct (Z.eqb_spec (y mod 400) 0) as [H400|H400];
    cbn [andb orb negb];
    Z.to_euclidean_division_equations; lia.
Qed.

(** From the first of a month to the first of the next there are as
    many days as the month has. *)
Lemma month_step (y m : Z) :
  1 <= m <= 12 ->
  ymd2ord (fst (following_month y m)) (snd (following_month y m)) 1
  - ymd2ord y m 1
  = days_in_month y m.
Proof.
  intros H.
  assert (Hm : m = 1 \/ m = 2 \/ m = 3 \/ m = 4 \/ m = 5 \/ m = 6 \/
               m = 7 \/ m = 8 \/ m = 9 \/ m = 10 \/ m = 11 \/ m = 12) by lia.
  clear H. pose proof (year_length y) as Hy.
  unfold ymd2ord, following_month, days_before_month, days_in_month.
  remember (days_before_year y) as a eqn:Ha.
  remember (days_before_year (y + 1)) as b eqn:Hb.
  remember (is_leap y) as leap eqn:Hl.
  repeat (destruct Hm as [Hm|Hm];
          [subst m; cbn [Z.eqb Pos.eqb fst snd];
           rewrite <- ?Ha, <- ?Hb, <- ?Hl; destruct leap; simpl; lia|]).
  subst m; cbn [Z.eqb Pos.eqb fst snd];
    rewrite <- ?Ha, <- ?Hb, <- ?Hl; destruct leap; simpl; lia.
Qed.

(** The window of a month is exactly as long as the month. *)
Lemma window_length (y m : Z) :
  1 <= m <= 12 ->
  first_instant (fst (following_month y m)) (snd (following_month y m))
  - first_instant y m
  = days_in_month y m * 86400000.
Proof.
  intros H. pose proof (month_step y m H) as Hd.
  unfold first_instant, to_millis, timegm.
  cbn [year month day hour minute second microsecond].
  change (0 / 1000) with 0. lia.
Qed.

(** When the store's [$sum] hands back doubles, adding up the revenues
    of the groups cannot fail, and the report exists. *)
Lemma revenue_sum_of_doubles (c : list order_doc) :
  (forall l, exists x, store_sum l = PFloat x) ->
  exists v, PyNum.sum py (map row_revenue (stage_group store_sum c)) = Ret v.
Proof.
  intros Hd. unfold stage_group. rewrite map_map. cbn [row_revenue].
  assert (H : exists xs,
             map (fun s =>
                    store_sum
                      (map subtotal
                         (filter (fun d => String.eqb (status d) s) c)))
                 (distinct (map status c))
             = map PFloat xs).
  { induction (distinct (map status c)) as [|s r [xs IH]].
    - exists []. reflexivity.
    - destruct (Hd (map subtotal
                      (filter (fun d => String.eqb (status d) s) c)))
        as [x Hx].
      exists (x :: xs). cbn [map]. rewrite Hx, IH. reflexivity. }
  destruct H as [xs Hxs]. rewrite Hxs. apply sum_floats.
Qed.

End Properties.

(* ================================================================= *)
(** ** The sort of a collection scan *)

Section SortDesc.

Context {A : Type}.
Variable key : A -> Z.

Lemma insert_desc_perm (x : A) (l : list A) :
  Permutation (insert_desc key x l) (x :: l).
Proof.
  induction l as [|y r IH]; cbn [insert_desc]; [reflexivity|].
  destruct (key x <? key y); [|reflexivity].
  rewrite IH. apply perm_swap.
Qed.

Lemma sort_desc_perm (l : list A) : Permutation (sort_desc key l) l.
Proof.
  induction l as [|x r IH]; [reflexivity|].
  unfold sort_desc in *. cbn [fold_right].
  rewrite insert_desc_perm. constructor. exact IH.
Qed.

Lemma insert_desc_sorted (x : A) (l : list A) :
  StronglySorted (fun a b => key b <= key a) l ->
  StronglySorted (fun a b => key b <= key a) (insert_desc key x l).
Proof.
  induction 1 as [|y r Hr IH Hy]; cbn [insert_desc].
  - constructor; constructor.
  - destruct (Z.ltb_spec (key x) (key y)) as [Hlt|Hge].
    + constructor; [exact IH|].
      apply (Permutation_Forall (Permutation_sym (insert_desc_perm x r))).
      constructor; [lia|exact Hy].
    + constructor.
      * constructor; assumption.
      * constructor; [exact Hge|].
        eapply Forall_impl; [|exact Hy]. cbn beta. intros z Hz. lia.
Qed.

Lemma sort_desc_sorted (l : list A) :
  StronglySorted (fun a b => key b <= key a) (sort_desc key l).
Proof.
  induction l as [|x r IH]; [constructor|].
  unfold sort_desc in *. cbn [fold_right]. apply insert_desc_sorted, IH.
Qed.

(** Inserting an element does not disturb the elements of any one key:
    it passes only elements whose key is greater than its own. *)
Lemma insert_desc_stable (t : Z) (x : A) (l : list A) :
  filter (fun d => key d =? t) (insert_desc key x l)
  = filter (fun d => key d =? t) (x :: l).
Proof.
  induction l as [|y r IH]; cbn [insert_desc]; [reflexivity|].
  destruct (Z.ltb_spec (key x) (key y)) as [Hlt|Hge]; [|reflexivity].
  cbn [filter] in *. rewrite IH.
  destruct (Z.eqb_spec (key x) t) as [Ex|Nx];
    destruct (Z.eqb_spec (key y) t) as [Ey|Ny]; try reflexivity.
  lia.
Qed.

(** The sort is stable: the elements of any one key come out in the
    order they went in. *)
Lemma sort_desc_stable (t : Z) (l : list A) :
  filter (fun d => key d =? t) (sort_desc key l)
  = filter (fun d => key d =? t) l.
Proof.
  induction l as [|x r IH]; [reflexivity|].
  unfold sort_desc in *. cbn [fold_right].
  rewrite insert_desc_stable. cbn [filter]. rewrite IH. reflexivity.
Qed.

End SortDesc.

(** *** Listing orders *)

(** C8. With the store configured, [list_orders] returns the whole order
    collection, every document once with its key rendered as a string,
    sorted by [created_at] descending, and orders whose [created_at] are
    equal appear in their insertion order: the orders of any one
    [created_at] are listed in the order in which they are stored. *)
Theorem list_orders_newest_first_stable (w : world) (c : list order_doc) :
  db w = Some c ->
  exists l,
    list_orders scan_sorted w = (Ret (map to_dict l), w) /\
    Permutation l c /\
    newest_first l /\
    forall t,
      filter (fun d => created_millis d =? t) l
      = filter (fun d => created_millis d =? t) c.
Proof.
  intros Hdb. destruct w as [d n k]. cbn in Hdb. subst d.
  exists (scan_sorted c). split; [reflexivity|].
  split; [apply sort_desc_perm|].
  split; [exact (sort_desc_sorted created_millis c)|].
  intros t. apply sort_desc_stable.
Qed.

(* ================================================================= *)
(** ** The claims on concrete inputs *)

(** C1. The code answers a well-formed identifier that matches no stored
    order with 400 "Invalid ID", the answer it gives to a malformed
    string: the 404 it raises inside the [try] block is caught by the
    [except Exception] of that same block.  The two error kinds are not
    distinguishable. *)
Theorem mark_paid_not_found_answers_400 :
  (exists oid,
      ObjectId.of_str (Req.order_id Sample.absent_key) = Ret oid /\
      option_map (find_one oid) (db Sample.world_feb_mar) = Some None) /\
  ObjectId.of_str (Req.order_id Sample.malformed_key) = Raise InvalidId /\
  fst (mark_paid Sample.clock Sample.absent_key Sample.world_feb_mar)
  = Raise (HTTPException 400 "Invalid ID") /\
  fst (mark_paid Sample.clock Sample.malformed_key Sample.world_feb_mar)
  = Raise (HTTPException 400 "Invalid ID") /\
  http_status
    (fst (mark_paid Sample.clock Sample.absent_key Sample.world_feb_mar))
  = 400.
Proof.
  split.
  - eexists. split; reflexivity.
  - repeat split; vm_compute; reflexivity.
Qed.

(** The subtotal of the boundary request is not 44.99. *)
Lemma boundary_subtotal_is_not_44_99 :
  exists o w',
    create_order From312 Sample.clock Sample.oid Sample.boundary_request Sample.world0
    = (Ret o, w') /\
    PyNum.eqb (subtotal o) (PFloat (decimal 4499 2)) = false /\
    subtotal o <> PFloat (decimal 4499 2).
Proof.
  eexists _, _. split; [vm_compute; reflexivity|].
  split; [vm_compute; reflexivity|].
  vm_compute. discriminate.
Qed.

Lemma create_order_subtotal_witness :
  db Sample.world0 = Some [] /\
  exists o w',
    create_order From312 Sample.clock Sample.oid Sample.boundary_request Sample.world0
    = (Ret o, w') /\
    subtotal o = PFloat (decimal 4498 2).
Proof.
  split; [reflexivity|].
  destruct (proj2 (create_order_subtotal From312 Sample.clock Sample.oid
                     Sample.boundary_request Sample.world0 [] eq_refl)
              eq_refl)
    as (o & w' & d & Hrun & Ho & _).
  exists o, w'. split; assumption.
Defined.



(** With a clock that moves between two readings, the order that
    [create_order] returns, and the one it stores, have [created_at]
    different from [updated_at]. *)
Lemma created_at_differs_from_updated_at :
  exists o w' d,
    create_order From312 Sample.clock Sample.oid Sample.empty_request Sample.world0
    = (Ret o, w') /\
    db w' = Some [d] /\
    created_at o <> updated_at o /\ created_at d <> updated_at d.
Proof.
  eexists _, _, _. split; [vm_compute; reflexivity|].
  split; [vm_compute; reflexivity|].
  split; vm_compute; discriminate.
Qed.

Lemma create_order_defaults_witness :
  exists o w',
    create_order From312 Sample.frozen Sample.oid Sample.boundary_request Sample.world0
    = (Ret o, w') /\
    status o = "pending" /\ payment_method o = "qr" /\
    created_at o = Sample.frozen 0 /\ updated_at o = Sample.frozen 1.
Proof.
  eexists _, _. split; [vm_compute; reflexivity|].
  destruct (create_order_defaults From312 Sample.frozen Sample.oid
              Sample.boundary_request Sample.world0 _ _ eq_refl)
    as (Hs & Hp & Hc & Hu & _).
  repeat split; assumption.
Defined.

Lemma create_order_empty_items_witness :
  Req.items Sample.empty_request = [] /\
  db Sample.world_feb_mar
  = Some [Sample.stored 0 "pending" Sample.feb_end;
          Sample.stored 1 "paid" Sample.mar_start] /\
  exists o w' d,
    create_order From312 Sample.clock Sample.oid Sample.empty_request
      Sample.world_feb_mar = (Ret o, w') /\
    subtotal o = PInt 0 /\ subtotal d = PInt 0 /\
    db w'
    = Some ([Sample.stored 0 "pending" Sample.feb_end;
             Sample.stored 1 "paid" Sample.mar_start] ++ [d]).
Proof.
  split; [reflexivity|]. split; [reflexivity|].
  destruct (create_order_empty_items From312 Sample.clock Sample.oid
              Sample.empty_request Sample.world_feb_mar _ eq_refl eq_refl)
    as (o & w' & d & Hrun & _ & Hdb & _ & _ & Ho & Hd & _).
  exists o, w', d. repeat split; assumption.
Defined.

Lemma mark_paid_twice_witness :
  db Sample.world_feb_mar
  = Some [Sample.stored 0 "pending" Sample.feb_end;
          Sample.stored 1 "paid" Sample.mar_start] /\
  ObjectId.of_str (Req.order_id Sample.first_key) = Ret (Sample.oid 0) /\
  exists w1 w2 c2,
    mark_paid Sample.clock Sample.first_key Sample.world_feb_mar
    = (Ret true, w1) /\
    mark_paid Sample.clock Sample.first_key w1 = (Ret true, w2) /\
    db w2 = Some c2 /\
    option_map status (find_one (Sample.oid 0) c2) = Some "paid".
Proof.
  split; [reflexivity|]. split; [reflexivity|].
  destruct (mark_paid_twice Sample.clock Sample.first_key
              Sample.world_feb_mar _ (Sample.oid 0)
              (Sample.stored 0 "pending" Sample.feb_end)
              eq_refl eq_refl eq_refl)
    as (w1 & w2 & c1 & c2 & d1 & d2 & H1 & H2 & _ & Hc2 & _ & _ & Hd2 & Hs & _).
  exists w1, w2, c2. repeat split; try assumption.
  rewrite Hd2. cbn [option_map]. rewrite Hs. reflexivity.
Defined.

Lemma status_is_monotonic_witness :
  db Sample.world_feb_mar
  = Some [Sample.stored 0 "pending" Sample.feb_end;
          Sample.stored 1 "paid" Sample.mar_start] /\
  exists upd new,
    db (snd (handle From312 Sample.clock Sample.oid scan_sorted Sample.sum
               (PostMarkPaid Sample.first_key) Sample.world_feb_mar))
    = Some (upd ++ new) /\
    Forall2 status_step
      [Sample.stored 0 "pending" Sample.feb_end;
       Sample.stored 1 "paid" Sample.mar_start] upd /\
    Forall (fun d => status d = "pending") new.
Proof.
  split; [reflexivity|].
  apply (status_is_monotonic From312 Sample.clock Sample.oid scan_sorted
           Sample.sum (PostMarkPaid Sample.first_key) Sample.world_feb_mar _
           eq_refl).
Defined.

Lemma monthly_report_window_witness :
  db Sample.world_feb_mar
  = Some [Sample.stored 0 "pending" Sample.feb_end;
          Sample.stored 1 "paid" Sample.mar_start] /\
  1 <= 2024 <= 9999 /\ 1 <= 2 <= 12 /\ (2024 < 9999 \/ 2 < 12) /\
  exists r w',
    monthly_report From312 Sample.clock Sample.sum (Some 2024) (Some 2)
      Sample.world_feb_mar = (Ret r, w') /\
    total_orders r = 1 /\
    option_map orders (summary_get "pending" (summary r)) = Some 1 /\
    option_map orders (summary_get "paid" (summary r)) = None.
Proof.
  split; [reflexivity|]. split; [lia|]. split; [lia|]. split; [lia|].
  destruct (proj1 (monthly_report_window From312 Sample.clock Sample.sum 2024 2
                     Sample.world_feb_mar _ (PFloat (decimal 1000 2))
                     eq_refl ltac:(lia) ltac:(lia) ltac:(lia) eq_refl))
    as (r & w' & Hrun & _ & _ & Htot & Hsum).
  exists r, w'. split; [exact Hrun|]. split; [exact Htot|].
  split; [exact (Hsum "pending")|exact (Hsum "paid")].
Defined.

Lemma list_orders_newest_first_stable_witness :
  db Sample.world_tie
  = Some [Sample.stored 0 "pending" Sample.feb_end;
          Sample.stored 1 "pending" Sample.feb_end] /\
  exists l,
    list_orders scan_sorted Sample.world_tie
    = (Ret (map to_dict l), Sample.world_tie) /\
    Permutation l [Sample.stored 0 "pending" Sample.feb_end;
                   Sample.stored 1 "pending" Sample.feb_end] /\
    newest_first l /\
    forall t,
      filter (fun d => created_millis d =? t) l
      = filter (fun d => created_millis d =? t)
          [Sample.stored 0 "pending" Sample.feb_end;
           Sample.stored 1 "pending" Sample.feb_end].
Proof.
  split; [reflexivity|].
  apply (list_orders_newest_first_stable Sample.world_tie _ eq_refl).
Defined.

(** Two orders created at the same instant are listed in the order in
    which they are stored, and an order created later is listed before
    one created earlier. *)
Lemma list_orders_on_samples :
  fst (list_orders scan_sorted Sample.world_tie)
  = Ret [to_dict (Sample.stored 0 "pending" Sample.feb_end);
         to_dict (Sample.stored 1 "pending" Sample.feb_end)] /\
  fst (list_orders scan_sorted Sample.world_feb_mar)
  = Ret [to_dict (Sample.stored 1 "paid" Sample.mar_start);
         to_dict (Sample.stored 0 "pending" Sample.feb_end)].
Proof. split; vm_compute; reflexivity. Qed.

(** On the two products of the boundary request the compensated sum of
    CPython 3.12 and the plain sum of the earlier interpreters are the
    same double. *)
Lemma boundary_sum_compensated :
  PyNum.sum From312 [PFloat (fmul (decimal 1999 2) (decimal 2 0));
                     PFloat (fmul (decimal 5005 3) (decimal 1 0))]
  = Ret (PFloat (fadd (fadd zero (fmul (decimal 1999 2) (decimal 2 0)))
                   (fmul (decimal 5005 3) (decimal 1 0)))) /\
  PyNum.sum Before312 [PFloat (fmul (decimal 1999 2) (decimal 2 0));
                       PFloat (fmul (decimal 5005 3) (decimal 1 0))]
  = Ret (PFloat (fadd (fadd zero (fmul (decimal 1999 2) (decimal 2 0)))
                   (fmul (decimal 5005 3) (decimal 1 0)))).
Proof. split; vm_compute; reflexivity. Qed.

(** The two sums are not the same function: on 0.01, 0.02 and 0.005 the
    plain sum rounds to 0.03 and the compensated one to 0.04. *)
Lemma sum_depends_on_interpreter :
  (let? s := PyNum.sum Before312
               [PFloat (decimal 1 2); PFloat (decimal 2 2);
                PFloat (decimal 5 3)] in
   Ret (PyNum.round s 2)) = Ret (PFloat (decimal 3 2)) /\
  (let? s := PyNum.sum From312
               [PFloat (decimal 1 2); PFloat (decimal 2 2);
                PFloat (decimal 5 3)] in
   Ret (PyNum.round s 2)) = Ret (PFloat (decimal 4 2)).
Proof. split; vm_compute; reflexivity. Qed.

(** That sum is the double nearest to 44.985, and it lies below 44.985:
    rounding to two decimals takes it down to 44.98. *)
Lemma boundary_sum_below_tie :
  fadd (fadd zero (fmul (decimal 1999 2) (decimal 2 0)))
    (fmul (decimal 5005 3) (decimal 1 0))
  = S754_finite false 6331075913664430 (-47) /\
  6331075913664430 * 1000 < 44985 * 2 ^ 47.
Proof. split; [vm_compute; reflexivity|]. vm_compute. reflexivity. Qed.

(* ================================================================= *)
(** ** Further properties of the order operations *)

(** *** Identifiers survive the trip through their string form *)

Lemma byte_hex_round_trip (b : Byte.byte) :
  let n := Byte.to_N b in
  ObjectId.isspace (ObjectId.hexdigit (n / 16)) = false /\
  ObjectId.hexval (ObjectId.hexdigit (n / 16)) = Some (n / 16)%N /\
  ObjectId.hexval (ObjectId.hexdigit (n mod 16)) = Some (n mod 16)%N /\
  Byte.of_N (16 * (n / 16) + n mod 16) = Some b.
Proof.
  destruct b; vm_compute; repeat split; reflexivity.
Qed.

Lemma fromhex_str (i : ObjectId.t) : ObjectId.fromhex (ObjectId.str i) = Some i.
Proof.
  induction i as [|b r IH]; [reflexivity|].
  destruct (byte_hex_round_trip b) as (Hsp & Hhi & Hlo & Hb).
  cbn [ObjectId.str ObjectId.fromhex].
  rewrite Hsp, Hhi, Hlo, IH, Hb. reflexivity.
Qed.

Lemma str_length (i : ObjectId.t) :
  String.length (ObjectId.str i) = (2 * List.length i)%nat.
Proof.
  induction i as [|b r IH]; [reflexivity|].
  cbn [ObjectId.str String.length List.length]. rewrite IH. lia.
Qed.

(** Parsing the string form of a twelve-byte identifier gives the
    identifier back. *)
Lemma of_str_str (i : ObjectId.t) :
  List.length i = 12%nat -> ObjectId.of_str (ObjectId.str i) = Ret i.
Proof.
  intros H. unfold ObjectId.of_str. rewrite str_length, H, fromhex_str.
  reflexivity.
Qed.

Lemma oid_eqb_eq (a b : ObjectId.t) : ObjectId.eqb a b = true <-> a = b.
Proof.
  unfold ObjectId.eqb. destruct (list_eq_dec Byte.byte_eq_dec a b);
    split; intros; congruence.
Qed.

Lemma update_first_new (oid : ObjectId.t) (f : order_doc -> order_doc)
    (c : list order_doc) (x : order_doc) :
  find_one oid c = None -> key x = oid ->
  update_first oid f (c ++ [x]) = (c ++ [f x], 1).
Proof.
  intros Habs Hx. induction c as [|d r IH]; cbn [app update_first find_one] in *.
  - rewrite Hx, (proj2 (oid_eqb_eq oid oid) eq_refl). reflexivity.
  - destruct (ObjectId.eqb (key d) oid); [discriminate|].
    rewrite (IH Habs). reflexivity.
Qed.

(** The first document with a given key splits the collection. *)
Lemma find_one_split (oid : ObjectId.t) (c : list order_doc) (d : order_doc) :
  find_one oid c = Some d ->
  exists pre post,
    c = pre ++ d :: post /\ find_one oid pre = None /\ key d = oid.
Proof.
  induction c as [|x r IH]; cbn [find_one]; [discriminate|].
  destruct (ObjectId.eqb (key x) oid) eqn:E.
  - intros H. injection H as <-. exists [], r.
    repeat split. apply oid_eqb_eq, E.
  - intros H. destruct (IH H) as (pre & post & -> & Hpre & Hk).
    exists (x :: pre), post. repeat split; [|exact Hk].
    cbn [find_one]. rewrite E. exact Hpre.
Qed.

Lemma update_first_split (oid : ObjectId.t) (f : order_doc -> order_doc)
    (pre post : list order_doc) (d : order_doc) :
  find_one oid pre = None -> key d = oid ->
  update_first oid f (pre ++ d :: post) = (pre ++ f d :: post, 1).
Proof.
  intros Hpre Hd. induction pre as [|x r IH]; cbn [app update_first find_one] in *.
  - rewrite Hd, (proj2 (oid_eqb_eq oid oid) eq_refl). reflexivity.
  - destruct (ObjectId.eqb (key x) oid); [discriminate|].
    rewrite (IH Hpre). reflexivity.
Qed.

Section MoreOrderProperties.

Variable py : interpreter.
Variable utc : nat -> datetime.
Variable new_oid : nat -> ObjectId.t.
Variable cursor_sort : list order_doc -> list order_doc.
Variable store_sum : list number -> number.

(** X1. The ["id"] that [create_order] returns is accepted by
    [mark_paid]: after a creation that succeeded, when the driver's new
    identifier has twelve bytes and is not yet a key of the collection,
    marking the returned id paid succeeds, turns the order just created
    to "paid" and leaves every order stored before as it was. *)
Theorem created_order_can_be_marked_paid (req : Req.CreateOrderRequest)
    (w w1 : world) (c : list order_doc) (o : order_dict) :
  db w = Some c ->
  create_order py utc new_oid req w = (Ret o, w1) ->
  List.length (new_oid (oids_made w)) = 12%nat ->
  find_one (new_oid (oids_made w)) c = None ->
  exists w2 d,
    mark_paid utc (Req.mk_mark_paid (key o)) w1 = (Ret true, w2) /\
    db w2 = Some (c ++ [d]) /\
    ObjectId.str (key d) = key o /\
    status d = "paid" /\
    items d = Req.items req /\ subtotal d = subtotal o /\
    paid_at d = Some (bson (utc (S (S (clock_reads w))))).
Proof.
  intros Hdb Hcreate Hlen Hfresh.
  destruct (create_order_inv py utc new_oid req w w1 o Hcreate)
    as (c' & s & Hdb' & Hs & Hfit).
  rewrite Hdb in Hdb'. injection Hdb' as <-.
  rewrite (create_order_run py utc new_oid req w c s Hdb Hs Hfit) in Hcreate.
  cbv zeta in Hcreate. injection Hcreate as <- <-.
  set (oid := new_oid (oids_made w)) in *.
  set (doc := new_order req s (utc (clock_reads w)) (utc (S (clock_reads w)))).
  set (w1 := mk_world (Some (c ++ [bson_order (with_key oid doc)]))
               (S (S (clock_reads w))) (S (oids_made w))).
  assert (Hoid : ObjectId.of_str
                   (Req.order_id
                      (Req.mk_mark_paid
                         (key (with_key (ObjectId.str oid) doc))))
                 = Ret oid) by (apply of_str_str, Hlen).
  pose proof (mark_paid_run utc _ w1 _ oid eq_refl Hoid) as Hrun.
  cbv zeta in Hrun.
  rewrite (update_first_new oid _ c (bson_order (with_key oid doc))
             Hfresh eq_refl) in Hrun.
  cbn [fst snd Z.eqb] in Hrun.
  eexists _, _. split; [exact Hrun|].
  repeat split.
Qed.

(** X2. A month without orders is no error: for a calendar month whose
    window holds no stored order, [monthly_report] returns an empty
    [summary], [total_orders] 0 and [total_revenue] 0.0, after one reading
    of the clock. *)
Theorem monthly_report_empty_window (y m : Z) (w : world)
    (c : list order_doc) :
  db w = Some c ->
  1 <= y <= 9999 -> 1 <= m <= 12 -> y < 9999 \/ m < 12 ->
  orders_in_window y m c = [] ->
  monthly_report py utc store_sum (Some y) (Some m) w
  = (Ret (mk_report y m [] 0 (PFloat zero)),
     mk_world (Some c) (S (clock_reads w)) (oids_made w)).
Proof.
  intros Hdb Hy Hm Hlast Hempty.
  pose proof (monthly_report_run py utc store_sum (Some y) (Some m) w c
                (mk_datetime y m 1 0 0 0 0)
                (mk_datetime (fst (following_month y m))
                   (snd (following_month y m)) 1 0 0 0 0) Hdb) as Hrun.
  cbv zeta in Hrun. rewrite !py_or_some in Hrun by lia.
  specialize (Hrun (dt_first_of_month y m Hy Hm)
                   (dt_following_month y m Hy Hm Hlast)).
  rewrite stage_match_window, Hempty in Hrun. exact Hrun.
Qed.

(** X3. A year or month that is no calendar month is not caught: with
    [year] outside 1..9999 or [month] outside 1..12 (and neither 0), and
    likewise for December 9999 whose following month does not exist,
    [monthly_report] lets the error of the datetime constructor escape
    -- a [ValueError] when year and month fit a C int, an
    [OverflowError] when one of them does not -- which is an internal
    server error, and leaves the orders as they were. *)
Theorem monthly_report_invalid_month (y m : Z) (w : world)
    (c : list order_doc) :
  db w = Some c ->
  y <> 0 -> m <> 0 ->
  y < 1 \/ 9999 < y \/ m < 1 \/ 12 < m \/ (y = 9999 /\ m = 12) ->
  fst (monthly_report py utc store_sum (Some y) (Some m) w)
  = Raise (if fits_c_int y && fits_c_int m then ValueError
           else OverflowError) /\
  http_status (fst (monthly_report py utc store_sum (Some y) (Some m) w)) = 500 /\
  db (snd (monthly_report py utc store_sum (Some y) (Some m) w)) = Some c.
Proof.
  intros Hdb Hy0 Hm0 Hbad.
  assert (Hrun : fst (monthly_report py utc store_sum (Some y) (Some m) w)
                 = Raise (if fits_c_int y && fits_c_int m then ValueError
                          else OverflowError)).
  { destruct w as [d n k]. cbn in Hdb. subst d.
    unfold monthly_report, aggregate. run_py.
    rewrite !py_or_some by assumption.
    unfold dt at 1. replace (fits_c_int 1) with true by reflexivity.
    rewrite andb_true_r.
    destruct (fits_c_int y && fits_c_int m) eqn:Hfit; [|reflexivity].
    destruct (check_date_fields y m 1) eqn:Hc; [|reflexivity].
    unfold check_date_fields, MINYEAR, MAXYEAR in Hc.
    repeat (apply andb_prop in Hc; destruct Hc as [Hc ?]).
    repeat match goal with
           | H : (_ <=? _) = true |- _ => apply Z.leb_le in H
           end.
    assert (y = 9999 /\ m = 12) as [-> ->] by lia.
    reflexivity. }
  rewrite Hrun. split; [reflexivity|]. split.
  - destruct (fits_c_int y && fits_c_int m); reflexivity.
  - rewrite monthly_report_reads. exact Hdb.
Qed.

End MoreOrderProperties.

(* ================================================================= *)
(** ** The window of a report and the calendar *)

Lemma following_month_valid (y m : Z) :
  1 <= m <= 12 ->
  1 <= snd (following_month y m) <= 12 /\
  12 * fst (following_month y m) + snd (following_month y m) = 12 * y + m + 1.
Proof.
  intros H. unfold following_month.
  destruct (Z.eqb_spec m 12); cbn [fst snd]; lia.
Qed.

(** Later months start later. *)
Lemma first_instant_mono (n : nat) :
  forall y m y' m',
    1 <= m <= 12 -> 1 <= m' <= 12 ->
    12 * y' + m' = 12 * y + m + Z.of_nat n ->
    first_instant y m <= first_instant y' m'.
Proof.
  induction n as [|n IH]; intros y m y' m' Hm Hm' Hidx.
  - assert (y' = y /\ m' = m) as [-> ->] by lia. lia.
  - destruct (following_month_valid y m Hm) as [Hm1 Hidx1].
    pose proof (window_length y m Hm) as Hlen.
    pose proof (days_in_month_bounds y m Hm) as Hdim.
    specialize (IH (fst (following_month y m)) (snd (following_month y m))
                  y' m' Hm1 Hm' ltac:(lia)).
    lia.
Qed.

Lemma valid_datetime_bounds (t : datetime) :
  valid_datetime t = true ->
  1 <= month t <= 12 /\ 1 <= day t <= days_in_month (year t) (month t) /\
  0 <= hour t < 24 /\ 0 <= minute t < 60 /\ 0 <= second t < 60 /\
  0 <= microsecond t < 1000000.
Proof.
  unfold valid_datetime, check_date_fields. intros H.
  repeat (apply andb_prop in H; destruct H as [H ?]).
  repeat match goal with
         | H : (_ <=? _) = true |- _ => apply Z.leb_le in H
         | H : (_ <? _) = true |- _ => apply Z.ltb_lt in H
         end.
  lia.
Qed.

(** A valid datetime lies in the window of its own month. *)
Lemma in_own_month (t : datetime) :
  valid_datetime t = true ->
  first_instant (year t) (month t) <= to_millis t
  < first_instant (fst (following_month (year t) (month t)))
      (snd (following_month (year t) (month t))).
Proof.
  intros Hv. destruct (valid_datetime_bounds t Hv) as (Hm & Hd & Hh & Hmi & Hs & Hus).
  pose proof (window_length (year t) (month t) Hm) as Hlen.
  revert Hlen. unfold first_instant, to_millis, timegm.
  cbn [year month day hour minute second microsecond].
  change (0 / 1000) with 0.
  generalize (ymd2ord (fst (following_month (year t) (month t)))
                (snd (following_month (year t) (month t))) 1).
  generalize (ymd2ord (year t) (month t) 1).
  generalize (days_in_month (year t) (month t)) Hd. generalize EPOCH_ORD.
  intros e dim Hdim a b Hlen.
  assert (0 <= microsecond t / 1000 <= 999)
    by (split; [apply Z.div_pos; lia|apply Z.lt_succ_r, Z.div_lt_upper_bound; lia]).
  lia.
Qed.

(** A datetime that the constructor returns has its fields in range. *)
Lemma dt_returns_valid (y m d : Z) (t : datetime) :
  dt y m d = Ret t -> check_date_fields y m d = true.
Proof.
  unfold dt. destruct (fits_c_int y && fits_c_int m && fits_c_int d);
    [|discriminate].
  destruct (check_date_fields y m d); [reflexivity|discriminate].
Qed.

Section WindowProperties.

Variable store_sum : list number -> number.

(** X4. The [$match] stage of [monthly_report] selects an order exactly
    when the year and the month of its [created_at] are the year and the
    month asked for: over stored orders with valid dates, the window from
    [datetime(y, m, 1)] to the first of the following month keeps the
    orders created in [(y, m)] and no other.  So every order is counted in
    the report of one month, its own. *)
Theorem window_selects_the_month (y m : Z) (c : list order_doc)
    (start end_ : datetime) :
  Forall (fun d => valid_datetime (created_at d) = true) c ->
  dt y m 1 = Ret start ->
  (if m =? 12 then dt (y + 1) 1 1 else dt y (m + 1) 1) = Ret end_ ->
  stage_match start end_ c
  = filter (fun d =>
              (year (created_at d) =? y) && (month (created_at d) =? m)) c.
Proof.
  intros Hvalid Hstart Hend.
  assert (Hy : 1 <= y <= 9999 /\ 1 <= m <= 12).
  { pose proof (dt_returns_valid _ _ _ _ Hstart) as Hc.
    unfold check_date_fields, MINYEAR, MAXYEAR in Hc.
    repeat (apply andb_prop in Hc; destruct Hc as [Hc ?]).
    repeat match goal with
           | H : (_ <=? _) = true |- _ => apply Z.leb_le in H
           end.
    lia. }
  destruct Hy as [Hy Hm].
  assert (Hlast : y < 9999 \/ m < 12).
  { destruct (Z.eqb_spec m 12) as [->|Hne]; [|lia].
    pose proof (dt_returns_valid _ _ _ _ Hend) as Hc.
    unfold check_date_fields, MINYEAR, MAXYEAR in Hc.
    repeat (apply andb_prop in Hc; destruct Hc as [Hc ?]).
    repeat match goal with
           | H : (_ <=? _) = true |- _ => apply Z.leb_le in H
           end.
    lia. }
  rewrite (dt_first_of_month y m Hy Hm) in Hstart. injection Hstart as <-.
  rewrite (dt_following_month y m Hy Hm Hlast) in Hend. injection Hend as <-.
  rewrite stage_match_window. unfold orders_in_window.
  apply filter_ext_in. intros d Hd.
  rewrite Forall_forall in Hvalid. specialize (Hvalid d Hd).
  set (t := created_at d) in *.
  pose proof (in_own_month t Hvalid) as Hown.
  destruct (valid_datetime_bounds t Hvalid) as (Hmt & _).
  destruct (following_month_valid y m Hm) as [Hm1 Hidx1].
  destruct (following_month_valid (year t) (month t) Hmt) as [Hmt1 Hidxt1].
  unfold in_month_window.
  destruct (following_month y m) as [y1 m1] eqn:Hf. cbn [fst snd] in *.
  destruct (Z.eqb_spec (year t) y) as [Ey|Ny];
    [destruct (Z.eqb_spec (month t) m) as [Em|Nm]|]; cbn [andb].
  - rewrite Ey, Em, Hf in Hown. cbn [fst snd] in Hown.
    apply andb_true_intro. split; [apply Z.leb_le|apply Z.ltb_lt]; lia.
  - apply andb_false_iff.
    destruct (Z.lt_ge_cases (12 * year t + month t) (12 * y + m)) as [Hlt|Hge].
    + left. apply Z.leb_gt.
      assert (Hgap : 12 * y + m
                     = 12 * fst (following_month (year t) (month t))
                       + snd (following_month (year t) (month t))
                       + Z.of_nat
                           (Z.to_nat
                              (12 * y + m - (12 * year t + month t) - 1)))
        by lia.
      pose proof (first_instant_mono _ _ _ y m Hmt1 Hm Hgap).
      lia.
    + right. apply Z.ltb_ge.
      assert (Hgap : 12 * year t + month t
                     = 12 * y1 + m1
                       + Z.of_nat
                           (Z.to_nat
                              (12 * year t + month t - (12 * y + m) - 1)))
        by lia.
      pose proof (first_instant_mono _ y1 m1 (year t) (month t) Hm1 Hmt Hgap).
      lia.
  - apply andb_false_iff.
    destruct (Z.lt_ge_cases (12 * year t + month t) (12 * y + m)) as [Hlt|Hge].
    + left. apply Z.leb_gt.
      assert (Hgap : 12 * y + m
                     = 12 * fst (following_month (year t) (month t))
                       + snd (following_month (year t) (month t))
                       + Z.of_nat
                           (Z.to_nat
                              (12 * y + m - (12 * year t + month t) - 1)))
        by lia.
      pose proof (first_instant_mono _ _ _ y m Hmt1 Hm Hgap).
      lia.
    + right. apply Z.ltb_ge.
      assert (Hgap : 12 * year t + month t
                     = 12 * y1 + m1
                       + Z.of_nat
                           (Z.to_nat
                              (12 * year t + month t - (12 * y + m) - 1)))
        by lia.
      pose proof (first_instant_mono _ y1 m1 (year t) (month t) Hm1 Hmt Hgap).
      lia.
Qed.

(** X5. The window that [monthly_report] builds for a calendar month is
    exactly as long as that month: both ends are valid dates and they are
    28, 29, 30 or 31 days apart -- 29 for the February of a leap year. *)
Theorem window_is_the_month_long (y m : Z) :
  1 <= y <= 9999 -> 1 <= m <= 12 -> y < 9999 \/ m < 12 ->
  exists start end_,
    dt y m 1 = Ret start /\
    (if m =? 12 then dt (y + 1) 1 1 else dt y (m + 1) 1) = Ret end_ /\
    to_millis end_ - to_millis start = days_in_month y m * 86400000 /\
    28 <= days_in_month y m <= 31 /\
    (m = 2 -> days_in_month y m = if is_leap y then 29 else 28).
Proof.
  intros Hy Hm Hlast.
  exists (mk_datetime y m 1 0 0 0 0),
    (mk_datetime (fst (following_month y m)) (snd (following_month y m))
       1 0 0 0 0).
  split; [apply dt_first_of_month; assumption|].
  split; [apply dt_following_month; assumption|].
  split; [apply (window_length y m Hm)|].
  split; [apply days_in_month_bounds, Hm|].
  intros ->. unfold days_in_month. destruct (is_leap y); reflexivity.
Qed.

End WindowProperties.

(* ================================================================= *)
(** ** Failure and repetition *)

Section LedgerProperties.

Variable py : interpreter.
Variable utc : nat -> datetime.
Variable new_oid : nat -> ObjectId.t.
Variable cursor_sort : list order_doc -> list order_doc.
Variable store_sum : list number -> number.

(** X6. [mark_paid] changes at most one order.  With the store
    configured a call either succeeds, and then the collection is the one
    before with the first order carrying the given key marked paid at the
    two clock readings of the call, every other document untouched; or it
    answers 400 "Invalid ID" and the collection is exactly as before. *)
Theorem mark_paid_touches_one_order (p : Req.MarkPaidRequest) (w : world)
    (c : list order_doc) :
  db w = Some c ->
  (exists oid pre x post,
      ObjectId.of_str (Req.order_id p) = Ret oid /\
      c = pre ++ x :: post /\ find_one oid pre = None /\ key x = oid /\
      fst (mark_paid utc p w) = Ret true /\
      db (snd (mark_paid utc p w))
      = Some (pre
              ++ set_paid (utc (clock_reads w)) (utc (S (clock_reads w))) x
              :: post))
  \/
  (fst (mark_paid utc p w) = Raise (HTTPException 400 "Invalid ID") /\
   db (snd (mark_paid utc p w)) = Some c).
Proof.
  intros Hdb. destruct (ObjectId.of_str (Req.order_id p)) as [oid|e] eqn:Ho.
  - destruct (find_one oid c) as [d|] eqn:Hd.
    + left. destruct (find_one_split oid c d Hd) as (pre & post & -> & Hpre & Hk).
      exists oid, pre, d, post.
      rewrite (mark_paid_run utc p w _ oid Hdb Ho).
      rewrite (update_first_split oid _ pre post d Hpre Hk).
      repeat split; assumption.
    + right. rewrite (mark_paid_run utc p w c oid Hdb Ho).
      rewrite (update_first_absent oid _ c Hd). split; reflexivity.
  - right. rewrite (mark_paid_malformed utc p w c e Hdb Ho).
    split; [reflexivity|exact Hdb].
Qed.

(** X7. [create_order] does not deduplicate: when a request has been
    created, sending the same request again succeeds as well, and the
    request is stored twice, under the two identifiers the driver makes
    in turn, with the same customer, items and subtotal. *)
Theorem create_order_twice_stores_two (req : Req.CreateOrderRequest)
    (w w1 : world) (c : list order_doc) (o1 : order_dict) :
  db w = Some c ->
  create_order py utc new_oid req w = (Ret o1, w1) ->
  exists o2 w2 d1 d2,
    create_order py utc new_oid req w1 = (Ret o2, w2) /\
    db w2 = Some (c ++ [d1; d2]) /\
    key d1 = new_oid (oids_made w) /\
    key d2 = new_oid (S (oids_made w)) /\
    key o1 = ObjectId.str (key d1) /\ key o2 = ObjectId.str (key d2) /\
    items d1 = Req.items req /\ items d2 = Req.items req /\
    subtotal d1 = subtotal d2 /\
    customer_email d1 = customer_email d2.
Proof.
  intros Hdb Hcreate.
  destruct (create_order_inv py utc new_oid req w w1 o1 Hcreate)
    as (c' & s & Hdb' & Hs & Hfit).
  rewrite Hdb in Hdb'. injection Hdb' as <-.
  rewrite (create_order_run py utc new_oid req w c s Hdb Hs Hfit) in Hcreate.
  cbv zeta in Hcreate. injection Hcreate as <- <-.
  eexists _, _, _, _.
  split.
  { match goal with
    | |- create_order _ _ _ _ ?w1 = _ =>
        apply (create_order_run py utc new_oid req w1 _ s eq_refl Hs Hfit)
    end. }
  cbn [db clock_reads oids_made]. rewrite <- app_assoc.
  repeat split.
Qed.

(** X8. With no store configured every order route answers
    500 "Database not configured" and does nothing else: no clock is
    read, no identifier is made. *)
Theorem not_configured_answers_500 (r : request) (w : world) :
  db w = None ->
  handle py utc new_oid cursor_sort store_sum r w
  = (Raise (HTTPException 500 "Database not configured"), w).
Proof.
  intros Hdb. destruct w as [d n k]. cbn in Hdb. subst d.
  destruct r; reflexivity.
Qed.

End LedgerProperties.

Lemma created_order_can_be_marked_paid_witness :
  exists o w1 w2 d,
    create_order From312 Sample.clock Sample.oid Sample.boundary_request Sample.world0
    = (Ret o, w1) /\
    mark_paid Sample.clock (Req.mk_mark_paid (key o)) w1 = (Ret true, w2) /\
    db w2 = Some [d] /\ status d = "paid".
Proof.
  eexists _, _.
  assert (Hc : create_order From312 Sample.clock Sample.oid
                 Sample.boundary_request Sample.world0 = (Ret _, _))
    by (vm_compute; reflexivity).
  destruct (created_order_can_be_marked_paid From312 Sample.clock Sample.oid
              Sample.boundary_request Sample.world0 _ [] _
              eq_refl Hc eq_refl eq_refl)
    as (w2 & d & H2 & H3 & _ & H4 & _).
  exists w2, d. split; [exact Hc|]. repeat split; assumption.
Defined.

Lemma monthly_report_empty_window_witness :
  monthly_report From312 Sample.clock Sample.sum (Some 2024) (Some 4)
    Sample.world_feb_mar
  = (Ret (mk_report 2024 4 [] 0 (PFloat zero)),
     mk_world (db Sample.world_feb_mar) 1 0).
Proof.
  apply (monthly_report_empty_window From312 Sample.clock Sample.sum 2024 4
           Sample.world_feb_mar _ eq_refl); try lia. reflexivity.
Defined.

Lemma monthly_report_invalid_month_witness :
  http_status
    (fst (monthly_report From312 Sample.clock Sample.sum (Some 2024) (Some 13)
            Sample.world_feb_mar)) = 500.
Proof.
  apply (monthly_report_invalid_month From312 Sample.clock Sample.sum 2024 13
           Sample.world_feb_mar _ eq_refl); lia.
Defined.

(** Month 13 is a [ValueError]; the year 2^31 does not reach the range
    check and is an [OverflowError]. *)
Lemma monthly_report_error_kinds :
  fst (monthly_report From312 Sample.clock Sample.sum (Some 2024) (Some 13)
         Sample.world_feb_mar) = Raise ValueError /\
  fst (monthly_report From312 Sample.clock Sample.sum (Some (2 ^ 31)) (Some 1)
         Sample.world_feb_mar) = Raise OverflowError.
Proof. split; vm_compute; reflexivity. Qed.

Lemma window_selects_the_month_witness :
  stage_match Sample.feb_end Sample.mar_start [] = [] /\
  stage_match (mk_datetime 2024 2 1 0 0 0 0) Sample.mar_start
    [Sample.stored 0 "pending" Sample.feb_end;
     Sample.stored 1 "paid" Sample.mar_start]
  = [Sample.stored 0 "pending" Sample.feb_end].
Proof.
  split; [reflexivity|].
  rewrite (window_selects_the_month 2024 2
             [Sample.stored 0 "pending" Sample.feb_end;
              Sample.stored 1 "paid" Sample.mar_start]
             (mk_datetime 2024 2 1 0 0 0 0) Sample.mar_start).
  - reflexivity.
  - repeat constructor.
  - reflexivity.
  - reflexivity.
Defined.

Lemma window_is_the_month_long_witness :
  exists start end_,
    dt 2024 2 1 = Ret start /\
    dt 2024 3 1 = Ret end_ /\
    to_millis end_ - to_millis start = 29 * 86400000.
Proof.
  destruct (window_is_the_month_long 2024 2 ltac:(lia) ltac:(lia) ltac:(lia))
    as (a & b & Ha & Hb & Hlen & _ & Hfeb).
  exists a, b. split; [exact Ha|]. split; [exact Hb|].
  rewrite Hlen, (Hfeb eq_refl). reflexivity.
Defined.

Lemma mark_paid_touches_one_order_witness :
  fst (mark_paid Sample.clock Sample.absent_key Sample.world_feb_mar)
  = Raise (HTTPException 400 "Invalid ID") /\
  db (snd (mark_paid Sample.clock Sample.absent_key Sample.world_feb_mar))
  = db Sample.world_feb_mar.
Proof.
  destruct (mark_paid_touches_one_order Sample.clock Sample.absent_key
              Sample.world_feb_mar _ eq_refl)
    as [(oid & pre & x & post & _ & _ & _ & _ & H & _)|[H1 H2]].
  - vm_compute in H. discriminate H.
  - split; assumption.
Defined.

Lemma create_order_twice_stores_two_witness :
  exists o1 o2 w1 w2 d1 d2,
    create_order From312 Sample.clock Sample.oid Sample.boundary_request Sample.world0
    = (Ret o1, w1) /\
    create_order From312 Sample.clock Sample.oid Sample.boundary_request w1
    = (Ret o2, w2) /\
    db w2 = Some [d1; d2] /\ key o1 <> key o2.
Proof.
  destruct (create_order From312 Sample.clock Sample.oid
              Sample.boundary_request Sample.world0) as [[o1|e] w1] eqn:Hc;
    [|vm_compute in Hc; discriminate].
  destruct (create_order_twice_stores_two From312 Sample.clock Sample.oid
              Sample.boundary_request Sample.world0 _ [] _ eq_refl Hc)
    as (o2 & w2 & d1 & d2 & H2 & H3 & K1 & K2 & S1 & S2 & _).
  exists o1, o2, w1, w2, d1, d2. split; [reflexivity|]. split; [exact H2|].
  split; [exact H3|].
  rewrite S1, S2, K1, K2. vm_compute. discriminate.
Defined.

Lemma not_configured_answers_500_witness :
  handle From312 Sample.clock Sample.oid scan_sorted Sample.sum
    (PostOrders Sample.boundary_request) (mk_world None 0 0)
  = (Raise (HTTPException 500 "Database not configured"), mk_world None 0 0).
Proof.
  apply (not_configured_answers_500 From312 Sample.clock Sample.oid scan_sorted
           Sample.sum (PostOrders Sample.boundary_request)
           (mk_world None 0 0) eq_refl).
Defined.

(* ================================================================= *)
(** ** Properties of the catalog and of the accounts *)

Ltac run_shop :=
  unfold shop_require_db, shop_utcnow;
  unfold shop_bind, shop_ret, shop_raise, shop_try, on_base, draw_oid,
    get_products, put_products, get_users, put_users, require_db, utcnow,
    lift;
  cbn [base products users db clock_reads oids_made fst snd].

Section ListFacts.

Context {A : Type}.
Variable p : A -> bool.

Lemma find_split (l : list A) (d : A) :
  find p l = Some d ->
  exists pre post, l = pre ++ d :: post /\ find p pre = None /\ p d = true.
Proof.
  induction l as [|x r IH]; cbn [find]; [discriminate|].
  destruct (p x) eqn:E.
  - intros H. injection H as <-. exists [], r. repeat split. exact E.
  - intros H. destruct (IH H) as (pre & post & -> & Hpre & Hd).
    exists (x :: pre), post. repeat split; [|exact Hd].
    cbn [find]. rewrite E. exact Hpre.
Qed.

Lemma find_after_absent (pre post : list A) :
  find p pre = None -> find p (pre ++ post) = find p post.
Proof.
  induction pre as [|x r IH]; cbn [find app]; [reflexivity|].
  destruct (p x); [discriminate|exact IH].
Qed.

Lemma update_where_split (f : A -> A) (pre post : list A) (d : A) :
  find p pre = None -> p d = true ->
  update_where p f (pre ++ d :: post) = (pre ++ f d :: post, 1).
Proof.
  intros Hpre Hd. induction pre as [|x r IH]; cbn [app update_where find] in *.
  - rewrite Hd. reflexivity.
  - destruct (p x); [discriminate|]. rewrite (IH Hpre). reflexivity.
Qed.

Lemma update_where_absent (f : A -> A) (l : list A) :
  find p l = None -> update_where p f l = (l, 0).
Proof.
  induction l as [|x r IH]; cbn [update_where find]; [reflexivity|].
  destruct (p x); [discriminate|]. intros H. rewrite (IH H). reflexivity.
Qed.

Lemma delete_where_split (pre post : list A) (d : A) :
  find p pre = None -> p d = true ->
  delete_where p (pre ++ d :: post) = (pre ++ post, 1).
Proof.
  intros Hpre Hd. induction pre as [|x r IH]; cbn [app delete_where find] in *.
  - rewrite Hd. reflexivity.
  - destruct (p x); [discriminate|]. rewrite (IH Hpre). reflexivity.
Qed.

Lemma delete_where_absent (l : list A) :
  find p l = None -> delete_where p l = (l, 0).
Proof.
  induction l as [|x r IH]; cbn [delete_where find]; [reflexivity|].
  destruct (p x); [discriminate|]. intros H. rewrite (IH H). reflexivity.
Qed.

End ListFacts.

Section ShopProperties.

Variable utc : nat -> datetime.
Variable new_oid : nat -> ObjectId.t.

(** *** Products *)

(** X9. [get_product] never answers 404.  With the store configured it
    returns the first product carrying the key, rendered by [to_dict], or
    else 400 "Invalid ID" -- for a malformed identifier and for a
    well-formed one that matches no product alike, the 404 raised inside
    the [try] being caught by its own handler.  It changes nothing. *)
Theorem get_product_found_or_400 (product_id : string) (s : site)
    (c : list order_doc) :
  db (base s) = Some c ->
  snd (get_product product_id s) = s /\
  http_status (fst (get_product product_id s)) <> 404 /\
  ((exists oid doc,
       ObjectId.of_str product_id = Ret oid /\
       find (has_key oid) (products s) = Some doc /\
       fst (get_product product_id s) = Ret (product_to_dict doc))
   \/
   ((forall oid, ObjectId.of_str product_id = Ret oid ->
                 find (has_key oid) (products s) = None) /\
    fst (get_product product_id s) = Raise (HTTPException 400 "Invalid ID"))).
Proof.
  intros Hdb. destruct s as [[d n k] ps us]. cbn in Hdb. subst d.
  unfold get_product. run_shop.
  destruct (ObjectId.of_str product_id) as [oid|e]; cbn [fst snd http_status].
  - destruct (find (has_key oid) ps) as [doc|] eqn:Hf;
      cbn [fst snd http_status].
    + repeat split;
        [destruct (renders (product_to_dict doc)); discriminate|].
      left. exists oid, doc. repeat split. exact Hf.
    + repeat split; [discriminate|]. right. split; [|reflexivity].
      intros oid' H. injection H as <-. exact Hf.
  - repeat split; [discriminate|]. right. split; [|reflexivity].
    intros oid' H. discriminate H.
Qed.

(** X10. An update that names no field is answered [{"updated": false}]
    before the identifier is even looked at: whatever [product_id] is --
    malformed, unknown or known -- nothing is read from the clock and
    nothing is written. *)
Theorem update_product_nothing_to_update (product_id : string)
    (payload : ProductUpdate.t) (s : site) (c : list order_doc) :
  db (base s) = Some c ->
  no_updates payload = true ->
  update_product utc product_id payload s = (Ret false, s).
Proof.
  intros Hdb Hno. destruct s as [[d n k] ps us]. cbn in Hdb. subst d.
  unfold update_product. run_shop. rewrite Hno. reflexivity.
Qed.

(** X11. An update of an existing product writes the fields the payload
    names and [updated_at], and nothing else: the first product with the
    key gets, field by field, the payload's value where there is one --
    also when that value is [false], [0.0] or the empty string -- and
    keeps its own where the payload has [None]; its key and [created_at]
    stay; the other products, the users and the orders are untouched. *)
Theorem update_product_sets_given_fields (product_id : string)
    (payload : ProductUpdate.t) (s : site) (c : list order_doc)
    (oid : ObjectId.t) (pre post : list product_doc) (d : product_doc) :
  db (base s) = Some c ->
  no_updates payload = false ->
  ObjectId.of_str product_id = Ret oid ->
  products s = pre ++ d :: post ->
  find (has_key oid) pre = None -> has_key oid d = true ->
  exists s' d',
    update_product utc product_id payload s = (Ret true, s') /\
    products s' = pre ++ d' :: post /\
    users s' = users s /\ db (base s') = db (base s) /\
    product_key d' = product_key d /\
    product_created_at d' = product_created_at d /\
    product_updated_at d' = bson (utc (clock_reads (base s))) /\
    let f := product_fields d in
    let f' := product_fields d' in
    ProductIn.title f'
    = match ProductUpdate.title payload with Some v => v | None => ProductIn.title f end /\
    ProductIn.description f'
    = match ProductUpdate.description payload with
      | Some v => Some v
      | None => ProductIn.description f
      end /\
    ProductIn.price f'
    = match ProductUpdate.price payload with Some v => v | None => ProductIn.price f end /\
    ProductIn.category f'
    = match ProductUpdate.category payload with
      | Some v => Some v
      | None => ProductIn.category f
      end /\
    ProductIn.image_url f'
    = match ProductUpdate.image_url payload with
      | Some v => Some v
      | None => ProductIn.image_url f
      end /\
    ProductIn.in_stock f'
    = match ProductUpdate.in_stock payload with
      | Some v => v
      | None => ProductIn.in_stock f
      end.
Proof.
  intros Hdb Hno Hoid Hps Hpre Hd.
  destruct s as [[db0 n k] ps us]. cbn in Hdb, Hps. subst db0 ps.
  unfold update_product. run_shop. rewrite Hno, Hoid. cbn [fst snd].
  rewrite (update_where_split (has_key oid) _ pre post d Hpre Hd).
  cbn [fst snd Z.eqb].
  eexists _, _. split; [reflexivity|]. cbn [products users base db].
  repeat split.
Qed.

(** X12. [delete_product] removes one product: the first that carries
    the key goes, the others stay in their order.  Once no product
    carries the key any more, deleting it again and fetching it both
    answer 400 "Invalid ID" (never 404) and change nothing. *)
Theorem delete_product_removes_one (product_id : string) (s : site)
    (c : list order_doc) (oid : ObjectId.t) (pre post : list product_doc)
    (d : product_doc) :
  db (base s) = Some c ->
  ObjectId.of_str product_id = Ret oid ->
  products s = pre ++ d :: post ->
  find (has_key oid) pre = None -> has_key oid d = true ->
  exists s',
    delete_product product_id s = (Ret true, s') /\
    products s' = pre ++ post /\
    users s' = users s /\ base s' = base s /\
    (find (has_key oid) post = None ->
     delete_product product_id s'
     = (Raise (HTTPException 400 "Invalid ID"), s') /\
     get_product product_id s'
     = (Raise (HTTPException 400 "Invalid ID"), s')).
Proof.
  intros Hdb Hoid Hps Hpre Hd.
  destruct s as [[db0 n k] ps us]. cbn in Hdb, Hps. subst db0 ps.
  unfold delete_product at 1. run_shop. rewrite Hoid. cbn [fst snd].
  rewrite (delete_where_split (has_key oid) pre post d Hpre Hd).
  cbn [fst snd Z.eqb].
  eexists. split; [reflexivity|]. cbn [products users base].
  repeat split.
  - unfold delete_product. run_shop. rewrite Hoid. cbn [fst snd].
    rewrite delete_where_absent
      by (rewrite find_after_absent; assumption).
    reflexivity.
  - unfold get_product. run_shop. rewrite Hoid. cbn [fst snd].
    rewrite find_after_absent by assumption.
    match goal with H : find _ post = None |- _ => rewrite H end.
    reflexivity.
Qed.



(** *** Accounts *)

Lemma find_none_existsb {B : Type} (q : B -> bool) (l : list B) :
  find q l = None <-> existsb q l = false.
Proof.
  induction l as [|x r IH]; cbn [find existsb]; [tauto|].
  destruct (q x); cbn [orb]; [split; discriminate|exact IH].
Qed.

(** X15. Registration and login fit together.  With the store configured
    and the e-mail address not yet registered, [register] succeeds and
    stores name, e-mail, password and role as given (the role is the
    caller's choice); a [login] with that e-mail and password then
    answers the same account -- same id, name, e-mail and role -- while a
    [login] with that e-mail and any other password answers
    401 "Invalid credentials".  Neither login changes anything. *)
Theorem register_then_login (req : RegisterRequest.t) (s : site)
    (c : list order_doc) :
  db (base s) = Some c ->
  registered (RegisterRequest.email req) (users s) = false ->
  exists a s1 u,
    register utc new_oid req s = (Ret a, s1) /\
    users s1 = users s ++ [u] /\
    user_password u = RegisterRequest.password req /\
    user_is_active u = true /\
    account_name a = RegisterRequest.name req /\
    account_email a = RegisterRequest.email req /\
    account_role a = RegisterRequest.role req /\
    login (LoginRequest.mk (RegisterRequest.email req)
             (RegisterRequest.password req)) s1 = (Ret a, s1) /\
    forall pw,
      pw <> RegisterRequest.password req ->
      login (LoginRequest.mk (RegisterRequest.email req) pw) s1
      = (Raise (HTTPException 401 "Invalid credentials"), s1).
Proof.
  intros Hdb Hnew. unfold registered in Hnew.
  apply find_none_existsb in Hnew.
  destruct s as [[db0 n k] ps us]. cbn in Hdb, Hnew. subst db0.
  unfold register. run_shop. rewrite Hnew.
  eexists _, _, _. split; [reflexivity|]. cbn [users].
  split; [reflexivity|].
  cbn [user_password user_is_active account_name account_email account_role].
  do 5 (split; [reflexivity|]).
  assert (Hnone : forall pw,
             find (fun u =>
                     String.eqb (user_email u) (RegisterRequest.email req)
                     && String.eqb (user_password u) pw) us = None).
  { intros pw. clear - Hnew. induction us as [|x r IH]; [reflexivity|].
    cbn [find] in *.
    destruct (String.eqb (user_email x) (RegisterRequest.email req));
      [discriminate|]. cbn [andb]. exact (IH Hnew). }
  split.
  - unfold login. run_shop. cbn [LoginRequest.email LoginRequest.password].
    rewrite (find_after_absent _ us _ (Hnone _)). cbn [find user_email user_password].
    rewrite !String.eqb_refl. reflexivity.
  - intros pw Hpw. unfold login. run_shop.
    cbn [LoginRequest.email LoginRequest.password].
    rewrite (find_after_absent _ us _ (Hnone _)). cbn [find user_email user_password].
    rewrite String.eqb_refl. cbn [andb].
    destruct (String.eqb_spec (RegisterRequest.password req) pw) as [E|_];
      [congruence|reflexivity].
Qed.

(** X16. An e-mail address is registered at most once.  A [register]
    for an address some stored user already has answers
    400 "Email already registered" and changes nothing -- whatever name,
    password or role the request carries; and if the stored addresses are
    pairwise different before a [register], they are so after it. *)
Theorem register_keeps_emails_unique (req : RegisterRequest.t) (s : site)
    (c : list order_doc) :
  db (base s) = Some c ->
  (registered (RegisterRequest.email req) (users s) = true ->
   register utc new_oid req s
   = (Raise (HTTPException 400 "Email already registered"), s)) /\
  (NoDup (map user_email (users s)) ->
   NoDup (map user_email (users (snd (register utc new_oid req s))))).
Proof.
  intros Hdb. destruct s as [[db0 n k] ps us]. cbn in Hdb. subst db0.
  unfold registered. cbn [users].
  destruct (find (fun u => String.eqb (user_email u) (RegisterRequest.email req))
              us) as [u|] eqn:Hf.
  - split.
    + intros _. unfold register. run_shop. rewrite Hf. reflexivity.
    + intros Hnd. unfold register. run_shop. rewrite Hf. exact Hnd.
  - split.
    + intros Hreg. apply find_none_existsb in Hf. congruence.
    + intros Hnd. unfold register. run_shop. rewrite Hf. cbn [snd users].
      rewrite map_app. cbn [map user_email].
      apply NoDup_app; [exact Hnd|repeat constructor; intros []|].
      intros e Hin [<-|[]]. apply in_map_iff in Hin.
      destruct Hin as (x & Hx & Hin).
      pose proof (find_none _ _ Hf x Hin) as Hne. cbn beta in Hne.
      rewrite Hx, String.eqb_refl in Hne. discriminate.
Qed.

End ShopProperties.

(** *** The catalog and the accounts on sample data *)

Lemma get_product_found_or_400_witness :
  db (base SampleShop.site1) = Some [] /\
  snd (get_product "000000000000000000000000" SampleShop.site1)
  = SampleShop.site1 /\
  http_status (fst (get_product "507f1f77bcf86cd799439011" SampleShop.site1))
  <> 404.
Proof.
  split; [reflexivity|].
  split.
  - apply (get_product_found_or_400 "000000000000000000000000"
             SampleShop.site1 [] eq_refl).
  - apply (get_product_found_or_400 "507f1f77bcf86cd799439011"
             SampleShop.site1 [] eq_refl).
Defined.

Lemma update_product_nothing_to_update_witness :
  db (base SampleShop.site1) = Some [] /\
  no_updates SampleShop.nothing_to_update = true /\
  update_product Sample.clock "not-an-object-id" SampleShop.nothing_to_update
    SampleShop.site1 = (Ret false, SampleShop.site1).
Proof.
  split; [reflexivity|]. split; [reflexivity|].
  apply (update_product_nothing_to_update Sample.clock "not-an-object-id"
           SampleShop.nothing_to_update SampleShop.site1 [] eq_refl eq_refl).
Defined.

Lemma update_product_sets_given_fields_witness :
  exists s' d',
    update_product Sample.clock "000000000000000000000000"
      SampleShop.zero_price_out_of_stock SampleShop.site1 = (Ret true, s') /\
    products s' = [d'] /\
    ProductIn.price (product_fields d') = zero /\
    ProductIn.in_stock (product_fields d') = false /\
    ProductIn.title (product_fields d') = "shirt".
Proof.
  destruct (update_product_sets_given_fields Sample.clock
              "000000000000000000000000" SampleShop.zero_price_out_of_stock
              SampleShop.site1 [] (Sample.oid 0) [] []
              (mk_product (Sample.oid 0) SampleShop.shirt Sample.mar_start
                 Sample.mar_start)
              eq_refl eq_refl eq_refl eq_refl eq_refl eq_refl)
    as (s' & d' & Hrun & Hps & _ & _ & _ & _ & _ & Ht & _ & Hp & _ & _ & Hs).
  exists s', d'. repeat split; assumption.
Defined.

Lemma delete_product_removes_one_witness :
  exists s',
    delete_product "000000000000000000000000" SampleShop.site1 = (Ret true, s') /\
    products s' = [] /\
    delete_product "000000000000000000000000" s'
    = (Raise (HTTPException 400 "Invalid ID"), s').
Proof.
  destruct (delete_product_removes_one "000000000000000000000000"
              SampleShop.site1 [] (Sample.oid 0) [] []
              (mk_product (Sample.oid 0) SampleShop.shirt Sample.mar_start
                 Sample.mar_start)
              eq_refl eq_refl eq_refl eq_refl eq_refl)
    as (s' & Hrun & Hps & _ & _ & Hagain).
  exists s'. split; [exact Hrun|]. split; [exact Hps|].
  exact (proj1 (Hagain eq_refl)).
Defined.



Lemma register_then_login_witness :
  exists a s1,
    register Sample.clock Sample.oid SampleShop.ann SampleShop.site0
    = (Ret a, s1) /\
    account_role a = "admin" /\
    login SampleShop.ann_login s1 = (Ret a, s1) /\
    login (LoginRequest.mk "ann@example.org" "guess") s1
    = (Raise (HTTPException 401 "Invalid credentials"), s1).
Proof.
  destruct (register_then_login Sample.clock Sample.oid SampleShop.ann
              SampleShop.site0 [] eq_refl eq_refl)
    as (a & s1 & u & Hreg & _ & _ & _ & _ & _ & Hrole & Hlogin & Hwrong).
  exists a, s1. split; [exact Hreg|]. split; [exact Hrole|].
  split; [exact Hlogin|]. apply Hwrong. discriminate.
Defined.

Lemma register_keeps_emails_unique_witness :
  let s1 := snd (register Sample.clock Sample.oid SampleShop.ann
                   SampleShop.site0) in
  register Sample.clock Sample.oid
    (RegisterRequest.mk "Bob" "ann@example.org" "other" "user") s1
  = (Raise (HTTPException 400 "Email already registered"), s1).
Proof.
  exact (proj1 (register_keeps_emails_unique Sample.clock Sample.oid
                  (RegisterRequest.mk "Bob" "ann@example.org" "other" "user")
                  (snd (register Sample.clock Sample.oid SampleShop.ann
                          SampleShop.site0))
                  [] eq_refl) eq_refl).
Defined.

(* ================================================================= *)
(** ** Overflow at creation and the consistency of a report *)

Lemma of_int_cases (n : Z) :
  of_int n = Raise OverflowError \/ exists x, of_int n = Ret x.
Proof.
  unfold of_int. destruct (binary_normalize prec emax n 0 false);
    (left; reflexivity) || (right; eexists; reflexivity).
Qed.

Lemma line_totals_overflow (l : list Req.OrderItemIn) :
  Exists (fun i => of_int (Req.quantity i) = Raise OverflowError) l ->
  line_totals l = Raise OverflowError.
Proof.
  induction 1 as [i r Hi|i r _ IH]; cbn [line_totals PyNum.mul to_double obind].
  - rewrite Hi. reflexivity.
  - destruct (of_int_cases (Req.quantity i)) as [E|[x E]]; rewrite E;
      [reflexivity|]. cbn [obind]. rewrite IH. reflexivity.
Qed.

Section ReportProperties.

Variable py : interpreter.
Variable utc : nat -> datetime.
Variable new_oid : nat -> ObjectId.t.
Variable store_sum : list number -> number.

(** X17. A quantity too large for a double stops [create_order]: the
    product [price * quantity] raises [OverflowError], which nothing
    catches, so the call ends as an internal server error before the
    clock is read and before anything is stored. *)
Theorem create_order_overflow (req : Req.CreateOrderRequest) (w : world)
    (c : list order_doc) :
  db w = Some c ->
  Exists (fun i => of_int (Req.quantity i) = Raise OverflowError)
    (Req.items req) ->
  create_order py utc new_oid req w = (Raise OverflowError, w) /\
  http_status (fst (create_order py utc new_oid req w)) = 500.
Proof.
  intros Hdb Hbig. destruct w as [d n k]. cbn in Hdb. subst d.
  unfold create_order, items_sum. run_py.
  rewrite (line_totals_overflow _ Hbig). split; reflexivity.
Qed.

Lemma build_report_inv (y m : Z) (agg : list group_row) (r : report) :
  build_report py y m agg = Ret r ->
  summary r
  = map (fun row =>
           (row_id row,
            mk_summary (row_count row) (PyNum.round (row_revenue row) 2)))
        agg /\
  total_orders r = fold_left Z.add (map row_count agg) 0.
Proof.
  unfold build_report. destruct agg as [|row rest].
  - cbn [obind]. intros H. injection H as <-. split; reflexivity.
  - destruct (PyNum.sum _ _) as [v|e]; cbn [obind]; [|discriminate].
    intros H. injection H as <-. split; reflexivity.
Qed.

(** Whenever [monthly_report] returns, the report was built from the
    groups of some list of documents. *)
Lemma monthly_report_inv (year month : option Z) (w w' : world) (r : report) :
  monthly_report py utc store_sum year month w = (Ret r, w') ->
  exists y m c', build_report py y m (stage_group store_sum c') = Ret r.
Proof.
  destruct w as [[c|] n k]; unfold monthly_report, aggregate; run_py;
    [|discriminate].
  destruct (dt _ _ 1) as [start|]; [|discriminate].
  destruct (if _ =? 12 then _ else _) as [end_|]; [|discriminate].
  cbn [db]. destruct (build_report _ _ _ _) as [r0|e] eqn:Hb; [|discriminate].
  intros H. injection H as <- _. eexists _, _, _. exact Hb.
Qed.

(** X18. A report is consistent with itself.  Whatever the parameters,
    when [monthly_report] returns, the statuses in [summary] are
    pairwise different, every entry counts at least one order, and
    [total_orders] is the sum of the entries' counts. *)
Theorem monthly_report_consistent (year month : option Z) (w w' : world)
    (r : report) :
  monthly_report py utc store_sum year month w = (Ret r, w') ->
  NoDup (map fst (summary r)) /\
  Forall (fun e => 1 <= orders (snd e)) (summary r) /\
  total_orders r
  = fold_left Z.add (map (fun e => orders (snd e)) (summary r)) 0.
Proof.
  intros Hrun. destruct (monthly_report_inv _ _ _ _ _ Hrun) as (y & m & c & Hb).
  destruct (build_report_inv _ _ _ _ Hb) as [Hsum Htot].
  rewrite Hsum, Htot. unfold stage_group. rewrite !map_map.
  cbn [fst snd orders row_id row_count].
  split; [|split].
  - rewrite map_id. apply distinct_NoDup.
  - apply Forall_map, Forall_forall. intros s Hs. cbn [snd orders].
    apply distinct_In, in_map_iff in Hs. destruct Hs as (d & Hd & Hin).
    assert (Hmem : In d (filter (fun d0 => String.eqb (status d0) s) c)).
    { apply filter_In. split; [exact Hin|]. rewrite Hd. apply String.eqb_refl. }
    destruct (filter (fun d0 => String.eqb (status d0) s) c);
      [contradiction|]. cbn [List.length]. lia.
  - reflexivity.
Qed.

End ReportProperties.

Lemma create_order_overflow_witness :
  db Sample.world_feb_mar
  = Some [Sample.stored 0 "pending" Sample.feb_end;
          Sample.stored 1 "paid" Sample.mar_start] /\
  create_order From312 Sample.clock Sample.oid
    (Sample.request [Sample.item (decimal 1999 2) 1;
                     Sample.item (decimal 1999 2) (2 ^ 1024)])
    Sample.world_feb_mar
  = (Raise OverflowError, Sample.world_feb_mar).
Proof.
  split; [reflexivity|].
  apply (create_order_overflow From312 Sample.clock Sample.oid
           (Sample.request [Sample.item (decimal 1999 2) 1;
                            Sample.item (decimal 1999 2) (2 ^ 1024)])
           Sample.world_feb_mar _ eq_refl).
  apply Exists_cons_tl, Exists_cons_hd. vm_compute. reflexivity.
Defined.

Lemma monthly_report_consistent_witness :
  exists r w',
    monthly_report From312 Sample.clock Sample.sum None None Sample.world_feb_mar
    = (Ret r, w') /\
    NoDup (map fst (summary r)) /\
    total_orders r
    = fold_left Z.add (map (fun e => orders (snd e)) (summary r)) 0.
Proof.
  eexists _, _. split; [vm_compute; reflexivity|].
  destruct (monthly_report_consistent From312 Sample.clock Sample.sum None None
              Sample.world_feb_mar _ _ eq_refl) as (Hnd & _ & Htot).
  split; [exact Hnd|exact Htot].
Defined.

(** X19. With no store configured every catalog and account route
    answers 500 "Database not configured" and does nothing else: no
    identifier is parsed, no clock is read, nothing is written. *)
Theorem shop_not_configured_answers_500
    (utc : nat -> datetime) (new_oid : nat -> ObjectId.t)
    (product_sort : list product_doc -> list product_doc) (s : site) :
  db (base s) = None ->
  let unavailable {A : Type} (r : outcome A * site) :=
    r = (Raise (HTTPException 500 "Database not configured"), s) in
  (forall req, unavailable (register utc new_oid req s)) /\
  (forall req, unavailable (login req s)) /\
  (forall p, unavailable (create_product utc new_oid p s)) /\
  unavailable (list_products product_sort s) /\
  (forall id, unavailable (get_product id s)) /\
  (forall id payload, unavailable (update_product utc id payload s)) /\
  (forall id, unavailable (delete_product id s)).
Proof.
  intros Hdb. destruct s as [[d n k] ps us]. cbn in Hdb. subst d.
  cbv zeta. repeat split; intros; reflexivity.
Qed.

Lemma shop_not_configured_answers_500_witness :
  update_product Sample.clock "not-an-object-id"
    SampleShop.zero_price_out_of_stock (mk_site (mk_world None 0 0) [] [])
  = (Raise (HTTPException 500 "Database not configured"),
     mk_site (mk_world None 0 0) [] []).
Proof.
  apply (shop_not_configured_answers_500 Sample.clock Sample.oid
           (fun l => l) (mk_site (mk_world None 0 0) [] []) eq_refl).
Defined.
